(** * webpack-isomorphic-tools: the server-side require() hooks

    A shallow embedding of [source/index.js] (class
    [webpack_isomorphic_tools]) and the properties of its interception
    policy, manifest loading, cache flushing, hook lifecycle and the
    startup waiter.

    JavaScript values that may be [undefined] are [option]s ([None] is
    [undefined]); methods are computations in a state-and-exception monad
    over the instance ([this]) and the Node.js process it runs in. *)

From stdpp Require Import gmap strings list fin_maps.

Open Scope string_scope.
Open Scope list_scope.

(** ** JavaScript values *)

(** A defined JavaScript value, as found in a parsed JSON manifest or
    returned by a user supplied matcher function. *)
#[local] Set Warnings "-register-all".
Inductive value :=
| VNull
| VBool (b : bool)
| VNumber (n : Z)
| VString (s : string)
| VObject (fields : list (string * value)).
#[local] Set Warnings "register-all".

(** JavaScript truthiness ([if (x)], [!x]). *)
Definition truthy (v : option value) : bool :=
  match v with
  | None => false
  | Some VNull => false
  | Some (VBool b) => b
  | Some (VNumber n) => negb (n =? 0)%Z
  | Some (VString s) => negb (String.eqb s "")
  | Some (VObject _) => true
  end.

(** Truthiness of a value known to be a string or [undefined]. *)
Definition truthy_string (s : option string) : bool :=
  truthy (VString <$> s).

(** [x === path] where [path] is a string: same type and same contents. *)
Definition strict_equals_string (x : value) (path : string) : bool :=
  match x with
  | VString s => String.eqb s path
  | _ => false
  end.

(** Modelled from the spec: [exists] of [./helpers] is not under src/.
    The optional fields of the data model ([include?], [exclude?]) and a
    missing manifest entry are [undefined]; [exists] tells [undefined]
    from everything else. *)
Definition exists_ {A : Type} (what : option A) : bool :=
  match what with
  | Some _ => true
  | None => false
  end.

(** A template string shows an undefined path as [undefined]. *)
Definition show_path (p : option string) : string :=
  match p with
  | Some s => s
  | None => "undefined"
  end.

Definition dquote : string := String (Ascii.ascii_of_nat 34) EmptyString.

(** ** Data model *)

(** An element of an [include] or [exclude] list.  A regular expression
    is represented by its [test] method (without the [lastIndex] state of
    the sticky and global flags) and a function by its graph; anything
    else is compared with [===]. *)
Inductive matcher :=
| MRegExp (test : string → bool)
| MFunction (f : string → option value)
| MOther (v : value).

(** The description of an asset type ([this.options.assets[asset_type]]). *)
Module Description.
Record t := mk {
  extensions : list string;
  include : option (list matcher);
  exclude : option (list matcher)
}.
End Description.

(** [this.options], after [normalize_options]. *)
Module Options.
Record t := mk {
  development : option value;
  project_path : option string;
  webpack_assets_file_path : string;
  assets : list (string * Description.t);
  alias : option (list (string * string));
  debug : bool
}.
End Options.

(** The contents of webpack-assets.json (own properties only). *)
Module Manifest.
Record t := mk {
  javascript : gmap string value;
  styles : gmap string value;
  assets : gmap string value
}.
End Manifest.

(** Modelled from the spec: [default_webpack_assets] of [./common] is not
    under src/; the spec calls it the empty default manifest. *)
Definition default_webpack_assets : Manifest.t :=
  Manifest.mk ∅ ∅ ∅.

(** What [require(path)] evaluates to: the parsed manifest for a JSON
    file, or the module compiled from the source a hook produced. *)
Inductive exports :=
| JsonExports (m : Manifest.t)
| SourceExports (source : string).

(** [x.assets] for the result of [this.assets()]. *)
Definition property_assets (x : exports) : option (gmap string value) :=
  match x with
  | JsonExports m => Some (Manifest.assets m)
  | SourceExports _ => None
  end.

Inductive level := Debug | Info | Error.

(** The continuation handed to [wait_for_assets]: the caller's callback
    or the [resolve] of the Promise made by [server]. *)
Inductive callback :=
| UserCallback (id : nat)
| PromiseResolve.

(** What require-hacker has mounted under a handle.  The closure given
    to [require_hacker.hook] is kept by the data it captures (the
    extension and the description); [hook_closure] below runs it. *)
Inductive mount :=
| ExtensionHook (extension : string) (description : Description.t)
| GlobalHook (id : string).

(** A pending [setTimeout] task; the only one ever scheduled is [check]. *)
Inductive task :=
| Check (done : callback).

(** The instance: the fields of [this]. *)
Record webpack_isomorphic_tools := mk_tools {
  options : Options.t;
  webpack_assets_path : option string;
  hooks : list nat;
  cached_assets : list string;
  alias_hook : option nat;
  log : list (level * string)
}.

(** The Node.js process: the disk, [require.cache], the hooks mounted by
    require-hacker, the clock, the timer queue and the callbacks invoked
    so far.  The disk holds the manifests that parse, each with its
    [assets] mapping: a file that is not valid JSON, or a manifest with
    no [assets], is not represented, and no statement below speaks of
    one. *)
Record host := mk_host {
  files : gmap string Manifest.t;
  require_cache : gmap string exports;
  mounted : gmap nat mount;
  next_handle : nat;
  now : N;
  timers : list (N * task);
  called : list (callback * N)
}.

Record state := mk_state {
  this : webpack_isomorphic_tools;
  node : host
}.

(** Field updates. *)
Definition set_options (f : Options.t → Options.t) (s : state) : state :=
  let t := this s in
  mk_state (mk_tools (f (options t)) (webpack_assets_path t) (hooks t)
              (cached_assets t) (alias_hook t) (log t)) (node s).

Definition set_webpack_assets_path (p : option string) (s : state) : state :=
  let t := this s in
  mk_state (mk_tools (options t) p (hooks t) (cached_assets t)
              (alias_hook t) (log t)) (node s).

Definition set_hooks (f : list nat → list nat) (s : state) : state :=
  let t := this s in
  mk_state (mk_tools (options t) (webpack_assets_path t) (f (hooks t))
              (cached_assets t) (alias_hook t) (log t)) (node s).

Definition set_cached_assets (f : list string → list string) (s : state) : state :=
  let t := this s in
  mk_state (mk_tools (options t) (webpack_assets_path t) (hooks t)
              (f (cached_assets t)) (alias_hook t) (log t)) (node s).

Definition set_alias_hook (h : option nat) (s : state) : state :=
  let t := this s in
  mk_state (mk_tools (options t) (webpack_assets_path t) (hooks t)
              (cached_assets t) h (log t)) (node s).

Definition set_log (f : list (level * string) → list (level * string))
    (s : state) : state :=
  let t := this s in
  mk_state (mk_tools (options t) (webpack_assets_path t) (hooks t)
              (cached_assets t) (alias_hook t) (f (log t))) (node s).

Definition set_files (fs : gmap string Manifest.t) (s : state) : state :=
  let n := node s in
  mk_state (this s) (mk_host fs (require_cache n) (mounted n) (next_handle n)
                       (now n) (timers n) (called n)).

Definition set_require_cache (f : gmap string exports → gmap string exports)
    (s : state) : state :=
  let n := node s in
  mk_state (this s) (mk_host (files n) (f (require_cache n)) (mounted n)
                       (next_handle n) (now n) (timers n) (called n)).

Definition set_mounted (f : gmap nat mount → gmap nat mount) (s : state) : state :=
  let n := node s in
  mk_state (this s) (mk_host (files n) (require_cache n) (f (mounted n))
                       (next_handle n) (now n) (timers n) (called n)).

Definition set_next_handle (h : nat) (s : state) : state :=
  let n := node s in
  mk_state (this s) (mk_host (files n) (require_cache n) (mounted n) h
                       (now n) (timers n) (called n)).

Definition set_now (t : N) (s : state) : state :=
  let n := node s in
  mk_state (this s) (mk_host (files n) (require_cache n) (mounted n)
                       (next_handle n) t (timers n) (called n)).

Definition set_timers (f : list (N * task) → list (N * task)) (s : state) : state :=
  let n := node s in
  mk_state (this s) (mk_host (files n) (require_cache n) (mounted n)
                       (next_handle n) (now n) (f (timers n)) (called n)).

Definition set_called (f : list (callback * N) → list (callback * N))
    (s : state) : state :=
  let n := node s in
  mk_state (this s) (mk_host (files n) (require_cache n) (mounted n)
                       (next_handle n) (now n) (timers n) (f (called n))).

(** ** Computations: state and exceptions *)

Inductive error :=
| JsError (message : string)
| TypeError (message : string)
| ModuleNotFound (path : string).

Inductive result (A : Type) :=
| Return (a : A)
| Throw (e : error).
Arguments Return {A} a.
Arguments Throw {A} e.

(** A method body: it runs on a state and ends by returning or throwing;
    what it changed before a throw stays changed. *)
Definition M (A : Type) : Type := state → result A * state.

Definition ret {A} (a : A) : M A := λ s, (Return a, s).
Definition throw {A} (e : error) : M A := λ s, (Throw e, s).
Definition bind {A B} (m : M A) (k : A → M B) : M B :=
  λ s, match m s with
       | (Return a, s') => k a s'
       | (Throw e, s') => (Throw e, s')
       end.
Definition gets {A} (f : state → A) : M A := λ s, (Return (f s), s).
Definition modify (f : state → state) : M unit := λ s, (Return tt, f s).

Declare Scope js_scope.
Delimit Scope js_scope with js.
Notation "'let!' x ':=' m 'in' k" := (bind m (λ x, k))
  (at level 10, x name, m at level 100, k at level 200) : js_scope.
Notation "'do!' m 'in' k" := (bind m (λ _, k))
  (at level 10, m at level 100, k at level 200) : js_scope.
Open Scope js_scope.

(** [for (let x of xs) body] *)
Fixpoint for_of {A} (xs : list A) (body : A → M unit) : M unit :=
  match xs with
  | [] => ret tt
  | x :: rest => do! body x in for_of rest body
  end.

(** ** The Node.js process and require-hacker *)

(** [this.log.debug], [this.log.info], [this.log.error] *)
Definition log_at (l : level) (message : string) : M unit :=
  modify (set_log (λ entries, entries ++ [(l, message)])).
Definition log_debug := log_at Debug.
Definition log_info := log_at Info.
Definition log_error := log_at Error.

(** [fs.existsSync(path)] *)
Definition existsSync (path : option string) : M bool :=
  gets (λ s, match path with
             | Some p => bool_decide (is_Some (files (node s) !! p))
             | None => false
             end).

(** Node's own [require(path)] of a JSON file: the cached exports if
    any, else the file is read, parsed and cached. *)
Definition node_require (path : option string) : M exports :=
  match path with
  | None => throw (TypeError "path must be a string")
  | Some p =>
      let! cache := gets (λ s, require_cache (node s)) in
      match cache !! p with
      | Some e => ret e
      | None =>
          let! disk := gets (λ s, files (node s)) in
          match disk !! p with
          | Some m =>
              do! modify (set_require_cache (insert p (JsonExports m))) in
              ret (JsonExports m)
          | None => throw (ModuleNotFound p)
          end
      end
  end.

(** [delete require.cache[path]]; an undefined key is the property
    named [undefined]. *)
Definition delete_require_cache (path : option string) : M unit :=
  modify (set_require_cache (delete (show_path path))).

(** Modelled from the spec: require-hacker is not under src/.  The spec
    describes a registration as an opaque token, created by [register]
    and disposed of by [undo]: [require_hacker.hook] and
    [require_hacker.global_hook] mount their closure under a fresh handle
    and return it. *)
Definition mount_hook (what : mount) : M nat :=
  let! h := gets (λ s, next_handle (node s)) in
  do! modify (set_mounted (insert h what)) in
  do! modify (set_next_handle (S h)) in
  ret h.

(** Modelled from the spec: [handle.unmount()] of require-hacker disposes
    of the registration under the handle. *)
Definition unmount (h : nat) : M unit :=
  modify (set_mounted (delete h)).

(** [setTimeout(task, delay)] *)
Definition setTimeout (t : task) (delay : N) : M unit :=
  let! clock := gets (λ s, now (node s)) in
  modify (set_timers (λ q, q ++ [((clock + delay)%N, t)])).

(** Calling the continuation of [wait_for_assets]. *)
Definition proceed (done : callback) : M unit :=
  let! clock := gets (λ s, now (node s)) in
  modify (set_called (λ l, l ++ [(done, clock)])).

(** ** The class [webpack_isomorphic_tools] *)

Definition with_development (flag : option value) (o : Options.t) : Options.t :=
  Options.mk flag (Options.project_path o) (Options.webpack_assets_file_path o)
    (Options.assets o) (Options.alias o) (Options.debug o).

Definition with_project_path (p : option string) (o : Options.t) : Options.t :=
  Options.mk (Options.development o) p (Options.webpack_assets_file_path o)
    (Options.assets o) (Options.alias o) (Options.debug o).

(** [this.options.development] *)
Definition options_development : M (option value) :=
  gets (λ s, Options.development (options (this s))).

(** The condition check interval of [wait_for_assets], in milliseconds. *)
Definition interval : N := 300.

(** [excludes(path, options)]: checks if the required path should be
    excluded from the custom require() hook. *)
Fixpoint excludes_loop (path : string) (matchers : list matcher) : bool :=
  match matchers with
  | [] => false
  | exclude :: rest =>
      match exclude with
      | MRegExp test =>
          if test path then true else excludes_loop path rest
      | MFunction f =>
          if truthy (f path) then true else excludes_loop path rest
      | MOther v =>
          if strict_equals_string v path then true else excludes_loop path rest
      end
  end.

Definition excludes (path : string) (options : Description.t) : bool :=
  if negb (exists_ (Description.exclude options)) then false
  else excludes_loop path (default [] (Description.exclude options)).

(** [includes(path, options)]: checks if the required path should be
    included in the custom require() hook. *)
Fixpoint includes_loop (path : string) (matchers : list matcher) : bool :=
  match matchers with
  | [] => false
  | include :: rest =>
      match include with
      | MRegExp test =>
          if test path then true else includes_loop path rest
      | MFunction f =>
          if truthy (f path) then true else includes_loop path rest
      | MOther v =>
          if strict_equals_string v path then true else includes_loop path rest
      end
  end.

Definition includes (path : string) (options : Description.t) : bool :=
  if negb (exists_ (Description.include options)) then true
  else includes_loop path (default [] (Description.include options)).

Section Methods.

(** [normalize_asset_path] and [webpack_path] of [./common],
    [path.resolve] of Node.js and [to_javascript_module_source] of
    require-hacker are not under src/: the methods are parameterised
    by them. *)
Variable normalize_asset_path : string → string → string.
Variable webpack_path : string → string.
Variable path_resolve : string → string → string.
Variable to_javascript_module_source : option value → string.

(** [development(flag)] *)
Definition development (flag : option value) : M unit :=
  do! modify (set_options
                (with_development
                   (if exists_ flag then flag else Some (VBool true)))) in
  let! dev := options_development in
  if truthy dev
  then log_debug "entering development mode"
  else log_debug "entering production mode".

(** [assets()] *)
Definition assets : M exports :=
  let! dev := options_development in
  let! path := gets (λ s, webpack_assets_path (this s)) in
  if truthy dev then
    let! found := existsSync path in
    if negb found then
      do! log_error
            (dquote +:+ show_path path +:+ dquote +:+
             " not found. Most likely it hasn't yet been generated by Webpack. Using an empty stub instead.") in
      ret (JsonExports default_webpack_assets)
    else node_require path
  else node_require path.

(** [refresh()] *)
Definition refresh : M unit :=
  let! dev := options_development in
  if negb (truthy dev) then
    throw (JsError ".refresh() called in production mode. Did you forget to call .development() method on your webpack-isomorphic-tools server instance?")
  else
    do! log_debug "flushing require() caches" in
    let! manifest := gets (λ s, webpack_assets_path (this s)) in
    do! delete_require_cache manifest in
    let! cached := gets (λ s, cached_assets (this s)) in
    do! for_of cached (λ path,
          do! log_debug (" flushing require() cache for " +:+ path) in
          delete_require_cache (Some path)) in
    modify (set_cached_assets (λ _, [])).

(** [enable_aliasing()] *)
Definition enable_aliasing : M unit :=
  let! h := mount_hook (GlobalHook "aliasing") in
  modify (set_alias_hook (Some h)).

(** [asset_source(asset_path)] *)
Definition asset_source (asset_path : string) : M (option value) :=
  do! log_debug (" requiring " +:+ asset_path) in
  if negb (truthy_string (Some asset_path)) then ret None
  else
    let! manifest := assets in
    match property_assets manifest with
    | None => throw (TypeError "Cannot read property of undefined")
    | Some assets =>
        let asset := assets !! asset_path in
        if exists_ asset then ret asset
        else
          do! log_error ("asset not found: " +:+ asset_path) in
          ret None
    end.

(** [require(global_asset_path, description)]; [None] is the
    [undefined] that lets Node fall back to its normal behaviour. *)
Definition require (global_asset_path : string) (description : Description.t)
    : M (option string) :=
  do! log_debug ("require() called for " +:+ global_asset_path) in
  let! project_path := gets (λ s, Options.project_path (options (this s))) in
  if negb (truthy_string project_path) then
    throw (JsError "You forgot to call the .server() method passing it your project's base path")
  else
    let asset_path :=
      normalize_asset_path global_asset_path (default "" project_path) in
    if negb (includes asset_path description) || excludes asset_path description
    then
      do! log_debug (" skipping require call for " +:+ asset_path) in
      ret None
    else
      let! dev := options_development in
      do! (if truthy dev
           then modify (set_cached_assets (λ l, l ++ [global_asset_path]))
           else ret tt) in
      let! source := asset_source (webpack_path asset_path) in
      ret (Some (to_javascript_module_source source)).

(** The closure [register_extension] hands to [require_hacker.hook]. *)
Definition hook_closure (extension : string) (description : Description.t)
    (path : string) : M (option string) :=
  if String.eqb extension "json" then
    let! manifest := gets (λ s, webpack_assets_path (this s)) in
    if bool_decide (manifest = Some path) then ret None
    else require path description
  else require path description.

(** [register_extension(extension, description)] *)
Definition register_extension (extension : string)
    (description : Description.t) : M unit :=
  do! log_debug (" registering a require() hook for *." +:+ extension) in
  let! h := mount_hook (ExtensionHook extension description) in
  modify (set_hooks (λ l, l ++ [h])).

(** [register()] *)
Definition register : M unit :=
  do! log_debug "registering require() hooks for assets" in
  let! types := gets (λ s, Options.assets (options (this s))) in
  for_of types (λ entry,
    let description := snd entry in
    for_of (Description.extensions description) (λ extension,
      register_extension extension description)).

(** [undo()] *)
Definition undo : M unit :=
  let! installed := gets (λ s, hooks (this s)) in
  do! for_of installed unmount in
  let! aliasing := gets (λ s, alias_hook (this s)) in
  match aliasing with
  | Some h => unmount h
  | None => ret tt
  end.

(** The inner [check] of [wait_for]: the condition is
    [fs.existsSync(this.webpack_assets_path)]. *)
Definition check (done : callback) : M unit :=
  let! path := gets (λ s, webpack_assets_path (this s)) in
  let! found := existsSync path in
  if found then proceed done
  else
    do! log_debug ("(" +:+ show_path path +:+ " not found)") in
    do! log_info "(waiting for the first Webpack build to finish)" in
    setTimeout (Check done) interval.

(** [wait_for_assets(done)] *)
Definition wait_for_assets (done : callback) : M unit :=
  check done.

(** [server(project_path, callback)] *)
Definition server (project_path : string) (callback : option nat) : M unit :=
  do! modify (set_options (with_project_path (Some project_path))) in
  let! file := gets (λ s, Options.webpack_assets_file_path (options (this s))) in
  do! modify (set_webpack_assets_path (Some (path_resolve project_path file))) in
  do! register in
  match callback with
  | Some id => wait_for_assets (UserCallback id)
  | None => wait_for_assets PromiseResolve
  end.

(** [new webpack_isomorphic_tools(options)] in the process [process]. *)
Definition constructor (options : Options.t) (process : host) : state :=
  let s0 := mk_state (mk_tools options None [] [] None []) process in
  let s1 := if exists_ (Options.alias options)
            then snd (enable_aliasing s0) else s0 in
  snd (log_debug "instantiated webpack-isomorphic-tools with options" s1).

(** ** Events *)

(** A method call on the instance. *)
Inductive call :=
| CallDevelopment (flag : option value)
| CallAssets
| CallRefresh
| CallEnableAliasing
| CallServer (project_path : string) (callback : option nat)
| CallRegister
| CallRegisterExtension (extension : string) (description : Description.t)
| CallRequire (global_asset_path : string) (description : Description.t)
| CallAssetSource (asset_path : string)
| CallUndo
| CallWaitForAssets (done : callback).

(** What happens to the instance and its process: a method call, Node
    loading [path] through the hook mounted under a handle, or a turn
    of the event loop after the disk has become [disk]: the timer at
    the head of the queue fires, [late] milliseconds after it is due. *)
Inductive event :=
| Call (c : call)
| Load (handle : nat) (path : string)
| Tick (late : N) (disk : gmap string Manifest.t).

(** The state a method call leaves. *)
Definition run_call (c : call) (s : state) : state :=
  match c with
  | CallDevelopment flag => snd (development flag s)
  | CallAssets => snd (assets s)
  | CallRefresh => snd (refresh s)
  | CallEnableAliasing => snd (enable_aliasing s)
  | CallServer project_path callback => snd (server project_path callback s)
  | CallRegister => snd (register s)
  | CallRegisterExtension extension description =>
      snd (register_extension extension description s)
  | CallRequire path description => snd (require path description s)
  | CallAssetSource path => snd (asset_source path s)
  | CallUndo => snd (undo s)
  | CallWaitForAssets done => snd (wait_for_assets done s)
  end.

(** Running a timer's task. *)
Definition run_task (t : task) : M unit :=
  match t with
  | Check done => check done
  end.

(** A turn of the event loop: other processes have made the disk
    [disk]; the oldest pending timer, if any, fires no earlier than it is
    due. *)
Definition tick (late : N) (disk : gmap string Manifest.t) : M unit :=
  do! modify (set_files disk) in
  let! clock := gets (λ s, now (node s)) in
  let! queue := gets (λ s, timers (node s)) in
  match queue with
  | [] => modify (set_now (clock + late)%N)
  | (due, t) :: rest =>
      do! modify (set_now (N.max clock due + late)%N) in
      do! modify (set_timers (λ _, rest)) in
      run_task t
  end.

(** The state after an event, whether the method returned or threw.
    The aliasing hook runs [alias_hook] of [./common], which is handed
    the path, the options and the log only; it is not run here. *)
Definition step (e : event) (s : state) : state :=
  match e with
  | Call c => run_call c s
  | Load handle path =>
      match mounted (node s) !! handle with
      | Some (ExtensionHook extension description) =>
          snd (hook_closure extension description path s)
      | _ => s
      end
  | Tick late disk => snd (tick late disk s)
  end.

(** The state after a sequence of events. *)
Definition run (events : list event) (s : state) : state :=
  foldl (λ s e, step e s) s events.

End Methods.

(** ** The inclusion policy in the words of the specification *)

(** A matcher matches a key: a RegExp by its test, a function by a
    truthy result, anything else by exact string equality. *)
Definition matches (key : string) (m : matcher) : bool :=
  match m with
  | MRegExp test => test key
  | MFunction f => truthy (f key)
  | MOther v => strict_equals_string v key
  end.

Definition some_matches (key : string) (l : option (list matcher)) : Prop :=
  ∃ ms m, l = Some ms ∧ m ∈ ms ∧ matches key m = true.

(** The policy as the specification words it: an empty include list
    counts like an absent one. *)
Definition stated_policy (key : string) (d : Description.t) : Prop :=
  (Description.include d = None ∨ Description.include d = Some [] ∨
   some_matches key (Description.include d)) ∧
  ¬ some_matches key (Description.exclude d).

(** The policy of the code: only an absent include list includes
    everything. *)
Definition policy (key : string) (d : Description.t) : Prop :=
  (Description.include d = None ∨ some_matches key (Description.include d)) ∧
  ¬ some_matches key (Description.exclude d).

(** A hook intercepts a load unless it returns [undefined]. *)
Definition intercepts {A} (outcome : result (option A) * state) : Prop :=
  fst outcome ≠ Return None.

(** ** What the statements speak of *)

(** The extension of a file path: what follows the last dot (character
    46) of its last segment (after the last slash, character 47), if
    there is a dot. *)
Fixpoint extension_after (seen : option string) (path : string) : option string :=
  match path with
  | EmptyString => seen
  | String c rest =>
      if Ascii.eqb c (Ascii.ascii_of_nat 46) then extension_after (Some "") rest
      else if Ascii.eqb c (Ascii.ascii_of_nat 47) then extension_after None rest
      else extension_after (option_map (λ e, e +:+ String c "") seen) rest
  end.

Definition extension_of (path : string) : option string :=
  extension_after None path.

(** The value [fs.existsSync(this.webpack_assets_path)] has in a state. *)
Definition manifest_on_disk (s : state) : bool :=
  match webpack_assets_path (this s) with
  | Some p => bool_decide (is_Some (files (node s) !! p))
  | None => false
  end.

(** The state after the flushing loop of [refresh] over [paths]. *)
Definition flushed (paths : list string) (s : state) : state :=
  set_require_cache (λ c, foldl (λ c p, delete p c) c paths)
    (set_log (λ entries,
       entries ++ map (λ p, (Debug, " flushing require() cache for " +:+ p)) paths)
       s).

Definition preserves {A B} (proj : state → B) (m : M A) : Prop :=
  ∀ s, proj (snd (m s)) = proj s.

(** The registry after [undo()]. *)
Definition unmounted (s : state) : gmap nat mount :=
  let m := foldl (λ m h, delete h m) (mounted (node s)) (hooks (this s)) in
  match alias_hook (this s) with
  | Some h => delete h m
  | None => m
  end.


(** Whether the manifest is there once the disk has become [disk]. *)
Definition on_disk (path : option string) (disk : gmap string Manifest.t) : bool :=
  match path with
  | Some p => bool_decide (is_Some (disk !! p))
  | None => false
  end.

(** Turns of the event loop, each with its lateness and its disk. *)
Definition ticks (turns : list (N * gmap string Manifest.t)) : list event :=
  map (λ t, Tick (fst t) (snd t)) turns.

(** The time that passes over a run of turns whose timer is pending. *)
Definition elapsed (turns : list (N * gmap string Manifest.t)) : N :=
  foldr (λ t acc, (interval + fst t + acc)%N) 0%N turns.

(** Polling: one timer pending, due one interval after the last check,
    and the callback not yet called. *)
Definition polling (k : callback) (s0 w : state) : Prop :=
  timers (node w) = [((now (node w) + interval)%N, Check k)] ∧
  called (node w) = called (node s0) ∧
  webpack_assets_path (this w) = webpack_assets_path (this s0).

(** ** A concrete project *)

(** Stand-ins for the functions the methods are parameterised by. *)
Definition sample_normalize (global_asset_path root : string) : string :=
  if String.prefix (root +:+ "/") global_asset_path
  then String.substring (String.length root + 1)
         (String.length global_asset_path - (String.length root + 1))
         global_asset_path
  else global_asset_path.

Definition sample_webpack_path (asset_path : string) : string :=
  "./" +:+ asset_path.

Definition sample_resolve (from to : string) : string :=
  from +:+ "/" +:+ to.

Definition sample_source (source : option value) : string :=
  match source with
  | Some (VString s) => "module.exports = " +:+ s
  | _ => "module.exports = undefined"
  end.

(** Images, but for one excluded file. *)
Definition images : Description.t :=
  Description.mk ["png"] None (Some [MOther (VString "assets/skip.png")]).

(** An include list that is there and empty. *)
Definition nothing_included : Description.t :=
  Description.mk ["png"] (Some []) None.

Definition sample_options : Options.t :=
  Options.mk None None "webpack-assets.json" [("images", images)] None false.

Definition sample_manifest : Manifest.t :=
  Manifest.mk ∅ ∅ {[ "./assets/logo.png" := VString "/build/logo.abc123.png" ]}.

Definition empty_disk : gmap string Manifest.t := ∅.

Definition built_disk : gmap string Manifest.t :=
  {[ "/app/webpack-assets.json" := sample_manifest ]}.

Definition fresh_process : host := mk_host empty_disk ∅ ∅ 0 0%N [] [].

Definition sample_run : list event → state → state :=
  run sample_normalize sample_webpack_path sample_resolve sample_source.

(** The instance as constructed: production mode, no project path. *)
Definition constructed : state := constructor sample_options fresh_process.

(** The instance with the project path and the manifest path set, in
    production mode and in development mode, before any manifest is
    written. *)
Definition located : state :=
  set_webpack_assets_path (Some "/app/webpack-assets.json")
    (set_options (with_project_path (Some "/app")) constructed).

Definition developing : state :=
  sample_run [Call (CallDevelopment None)] located.

(** Development mode after two loads. *)
Definition loaded : state :=
  sample_run [Call (CallRequire "/app/assets/logo.png" images);
              Call (CallRequire "/app/assets/icon.png" images)] developing.

(** The instance in production mode with the manifest written. *)
Definition built : state := set_files built_disk located.

(** A project whose manifest file is not named as a JSON file, with an
    asset type for the extension of that file; development mode, the
    server started and the manifest written. *)
Definition manifests : Description.t :=
  Description.mk ["manifest"] None None.

Definition oddly_named_options : Options.t :=
  Options.mk None None "assets.manifest" [("manifests", manifests)] None false.

Definition oddly_named : state :=
  set_files {[ "/app/assets.manifest" := sample_manifest ]}
    (sample_run [Call (CallDevelopment None); Call (CallServer "/app" None)]
       (constructor oddly_named_options fresh_process)).

(** ** What the further statements speak of *)

(** The pairs of an extension and its description, in the order in which
    the two loops of [register()] visit them. *)
Definition registrations (o : Options.t) : list (string * Description.t) :=
  flat_map (λ entry, map (λ extension, (extension, snd entry))
                       (Description.extensions (snd entry)))
    (Options.assets o).

(** No handle from the next one on is taken. *)
Definition fresh_handles (s : state) : Prop :=
  ∀ h : nat, (next_handle (node s) ≤ h)%nat → mounted (node s) !! h = None.

(** The two lines [check] logs when the manifest is not there. *)
Definition waiting_lines (s : state) : list (level * string) :=
  [(Debug, "(" +:+ show_path (webpack_assets_path (this s)) +:+ " not found)");
   (Info, "(waiting for the first Webpack build to finish)")].

(** The state in which [require] calls [asset_source]: the call is
    logged and, in development mode, the path is recorded. *)
Definition entered (path : string) (s : state) : state :=
  let s0 := set_log (λ entries,
              entries ++ [(Debug, "require() called for " +:+ path)]) s in
  if truthy (Options.development (options (this s))) then set_cached_assets (λ l, l ++ [path]) s0 else s0.

(** The state after [register_extension] has run for each pair. *)
Definition mount_all (pairs : list (string * Description.t)) (s : state) : state :=
  foldl (λ s pair, snd (register_extension (fst pair) (snd pair) s)) s pairs.

(** The continuation [server] waits with. *)
Definition continuation (given : option nat) : callback :=
  match given with
  | Some id => UserCallback id
  | None => PromiseResolve
  end.

(** ** Tactics *)

(** Unfolding the monad. *)
Ltac js_unfold :=
  unfold bind, ret, throw, gets, modify, options_development,
    log_debug, log_info, log_error, log_at in *.

(** Tactics that unfold the methods by name. *)
Ltac unfold_require := unfold require.
Ltac unfold_hook_closure := unfold hook_closure.
Ltac unfold_step := cbn [step].
Ltac unfold_constructor := unfold constructor.

(** ** Basic facts *)

Lemma includes_loop_spec key ms :
  includes_loop key ms = true ↔ ∃ m, m ∈ ms ∧ matches key m = true.
Proof.
  induction ms as [|m ms IH]; simpl.
  - split; [discriminate | intros (m & Hm & _); by apply elem_of_nil in Hm].
  - assert (Hstep : (if matches key m then true else includes_loop key ms)
                    = match m with
                      | MRegExp test =>
                          if test key then true else includes_loop key ms
                      | MFunction f =>
                          if truthy (f key) then true else includes_loop key ms
                      | MOther v =>
                          if strict_equals_string v key then true
                          else includes_loop key ms
                      end) by (by destruct m).
    rewrite <- Hstep. destruct (matches key m) eqn:Hm.
    + split; [intros _; exists m; split; [left | done] | done].
    + rewrite IH. split.
      * intros (m' & Hin & Hm'). exists m'. split; [by right | done].
      * intros (m' & Hin & Hm'). apply elem_of_cons in Hin as [-> | Hin].
        -- congruence.
        -- by exists m'.
Qed.

Lemma excludes_loop_includes_loop key ms :
  excludes_loop key ms = includes_loop key ms.
Proof. induction ms as [|m ms IH]; simpl; [done | by rewrite IH]. Qed.

Lemma includes_spec key d :
  includes key d = true ↔
  Description.include d = None ∨ some_matches key (Description.include d).
Proof.
  unfold includes, some_matches. destruct (Description.include d) as [ms|]; simpl.
  - rewrite includes_loop_spec. split.
    + intros (m & Hin & Hm). right. by exists ms, m.
    + intros [? | (ms' & m & [= <-] & Hin & Hm)]; [done | by exists m].
  - split; [by left | done].
Qed.

Lemma excludes_spec key d :
  excludes key d = true ↔ some_matches key (Description.exclude d).
Proof.
  unfold excludes, some_matches. destruct (Description.exclude d) as [ms|]; simpl.
  - rewrite excludes_loop_includes_loop, includes_loop_spec. split.
    + intros (m & Hin & Hm). by exists ms, m.
    + intros (ms' & m & [= <-] & Hin & Hm). by exists m.
  - split; [done | by intros (? & ? & ? & _)].
Qed.

Lemma skip_condition_spec key d :
  negb (includes key d) || excludes key d = false ↔ policy key d.
Proof.
  unfold policy. rewrite <- includes_spec, <- excludes_spec.
  destruct (includes key d), (excludes key d); simpl; split;
    try done; try (by intros [? ?]).
Qed.

Lemma truthy_string_Some root : root ≠ "" → truthy_string (Some root) = true.
Proof.
  intros Hne. unfold truthy_string; simpl.
  destruct (String.eqb_spec root ""); [done | done].
Qed.

(** ** Computations that leave a part of the state alone *)

Section Frame.
Context {B : Type} (proj : state → B).

Lemma preserves_ret {A} (a : A) : preserves proj (ret a).
Proof. done. Qed.

Lemma preserves_throw {A} e : preserves proj (@throw A e).
Proof. done. Qed.

Lemma preserves_gets {A} (f : state → A) : preserves proj (gets f).
Proof. done. Qed.

Lemma preserves_modify f :
  (∀ s, proj (f s) = proj s) → preserves proj (modify f).
Proof. intros Hf s. apply Hf. Qed.

Lemma preserves_bind {A C} (m : M A) (k : A → M C) :
  preserves proj m → (∀ a, preserves proj (k a)) → preserves proj (bind m k).
Proof.
  intros Hm Hk s. unfold bind. specialize (Hm s).
  destruct (m s) as [[a|e] s']; simpl in *; [by rewrite Hk | done].
Qed.

Lemma preserves_for_of {A} (xs : list A) body :
  (∀ x, preserves proj (body x)) → preserves proj (for_of xs body).
Proof.
  intros Hbody. induction xs as [|x xs IH]; simpl.
  - apply preserves_ret.
  - apply preserves_bind; [apply Hbody | intros _; apply IH].
Qed.

Lemma preserves_if {A} (b : bool) (m1 m2 : M A) :
  preserves proj m1 → preserves proj m2 → preserves proj (if b then m1 else m2).
Proof. by destruct b. Qed.

End Frame.

Ltac frame :=
  repeat (intros; first
    [ progress unfold log_debug, log_info, log_error, log_at, options_development,
        existsSync, node_require, delete_require_cache, mount_hook, unmount,
        setTimeout, proceed
    | apply preserves_bind | apply preserves_for_of | apply preserves_ret
    | apply preserves_throw | apply preserves_gets
    | (apply preserves_modify; intros ?; reflexivity)
    | match goal with
      | |- preserves _ (if ?b then _ else _) => destruct b
      | |- preserves _ (match ?x with _ => _ end) => destruct x
      end ]).

Section Properties.

Variable normalize_asset_path : string → string → string.
Variable webpack_path : string → string.
Variable path_resolve : string → string → string.
Variable to_javascript_module_source : option value → string.

Abbreviation require :=
  (require normalize_asset_path webpack_path to_javascript_module_source).
Abbreviation hook_closure :=
  (hook_closure normalize_asset_path webpack_path to_javascript_module_source).

(** C1 (amended): with the project path set, [require] intercepts a
    load exactly when the include list is absent or one of its matchers
    matches the normalized path, and no matcher of the exclude list
    matches it; a RegExp matches by its test, a function by a truthy
    result, anything else by strict equality with the path.  An exclude
    match wins over an include match; an include list that is present
    and empty includes nothing. *)
Theorem require_intercepts_iff_policy s global_asset_path description root :
  Options.project_path (options (this s)) = Some root →
  root ≠ "" →
  intercepts (require global_asset_path description s) ↔
  policy (normalize_asset_path global_asset_path root) description.
Proof.
  intros Hroot Hne. rewrite <- skip_condition_spec.
  unfold intercepts. unfold_require. js_unfold. simpl.
  rewrite Hroot, (truthy_string_Some _ Hne). simpl.
  destruct (negb (includes _ description) || excludes _ description); simpl.
  - split; [by intros [] | done].
  - split; [done | intros _].
    destruct (truthy _); simpl;
      match goal with
      | |- context [asset_source ?k ?st] => destruct (asset_source k st) as [[v|e] s']
      end; simpl; done.
Qed.

Lemma flush_loop paths s :
  for_of paths (λ path,
    do! log_debug (" flushing require() cache for " +:+ path) in
    delete_require_cache (Some path)) s
  = (Return tt, flushed paths s).
Proof.
  revert s. induction paths as [|p paths IH]; intros [[] []]; simpl.
  - unfold flushed, set_require_cache, set_log, ret; simpl.
    by rewrite app_nil_r.
  - unfold bind at 1. unfold bind at 1. js_unfold. simpl.
    unfold delete_require_cache, modify. simpl. rewrite IH.
    unfold flushed, set_require_cache, set_log; simpl.
    by rewrite <- app_assoc.
Qed.

Lemma foldl_delete_lookup (paths : list string) (c : gmap string exports) p :
  foldl (λ c p, delete p c) c paths !! p =
  if bool_decide (p ∈ paths) then None else c !! p.
Proof.
  revert c. induction paths as [|q paths IH]; intros c; cbn [foldl].
  - rewrite bool_decide_eq_false_2; [done | apply not_elem_of_nil].
  - rewrite IH. destruct (decide (p ∈ paths)) as [Hin|Hnin].
    + rewrite !bool_decide_eq_true_2; [done | by right | done].
    + rewrite (bool_decide_eq_false_2 _ Hnin).
      destruct (decide (p = q)) as [->|Hne].
      * rewrite bool_decide_eq_true_2 by left. apply lookup_delete_eq.
      * rewrite bool_decide_eq_false_2.
        -- by apply lookup_delete_ne.
        -- intros [?|?]%elem_of_cons; done.
Qed.

(** C2: outside development mode [refresh()] throws at once and leaves
    the whole state as it was: [cached_assets] is unchanged and nothing
    is evicted from the require cache. *)
Theorem refresh_production_throws s :
  truthy (Options.development (options (this s))) = false →
  ∃ e, refresh s = (Throw e, s).
Proof.
  intros Hdev. unfold refresh. js_unfold. simpl. rewrite Hdev. simpl. eauto.
Qed.

(** C3: in development mode [refresh()] returns normally; it deletes the
    require-cache entry of the manifest file, then the entry of every
    path of [cached_assets] in turn, and leaves [cached_assets] empty.
    Nothing else of the require cache changes. *)
Theorem refresh_development_flushes s :
  truthy (Options.development (options (this s))) = true →
  ∃ s',
    refresh s = (Return tt, s') ∧
    require_cache (node s') =
      foldl (λ c p, delete p c)
        (delete (show_path (webpack_assets_path (this s))) (require_cache (node s)))
        (cached_assets (this s)) ∧
    cached_assets (this s') = [] ∧
    (∀ p, p = show_path (webpack_assets_path (this s)) ∨ p ∈ cached_assets (this s) →
          require_cache (node s') !! p = None) ∧
    (∀ p, p ≠ show_path (webpack_assets_path (this s)) →
          p ∉ cached_assets (this s) →
          require_cache (node s') !! p = require_cache (node s) !! p).
Proof.
  intros Hdev. unfold refresh.
  unfold bind at 1. unfold options_development, gets at 1. rewrite Hdev. simpl.
  unfold bind at 1. unfold log_debug, log_at, modify at 1.
  unfold bind at 1. unfold gets at 1.
  unfold bind at 1. unfold delete_require_cache at 1. unfold modify at 1.
  unfold bind at 1. unfold gets at 1.
  unfold bind at 1. rewrite flush_loop. unfold modify.
  eexists. split; [reflexivity |]. destruct s as [[] []]; simpl.
  split; [reflexivity |]. split; [reflexivity |]. split.
  - intros p Hp. rewrite foldl_delete_lookup. case_bool_decide; [done |].
    destruct Hp as [-> | Hp]; [apply lookup_delete_eq | done].
  - intros p Hne Hnin. rewrite foldl_delete_lookup.
    rewrite bool_decide_eq_false_2 by done. by apply lookup_delete_ne.
Qed.

Lemma hook_closure_unfold extension description path s :
  hook_closure extension description path s =
    (if bool_decide (extension = "json" ∧ webpack_assets_path (this s) = Some path)
     then (Return None, s)
     else require path description s).
Proof.
  unfold_hook_closure.
  destruct (String.eqb_spec extension "json") as [->|Hne].
  - unfold bind at 1. unfold gets at 1.
    destruct (decide (webpack_assets_path (this s) = Some path)) as [Heq|Hneq].
    + rewrite !bool_decide_eq_true_2; [done | by split | done].
    + rewrite !bool_decide_eq_false_2; [done | by intros [_ ?] | done].
  - rewrite bool_decide_eq_false_2; [done | by intros [? _]].
Qed.

(** C6 (amended): the hook registered for the extension json, whatever
    the manifest file is called, declines the path of the manifest file,
    leaving the state untouched; every other hook, and the json hook on
    every other path, is [require(path, description)].  The hook that
    [register_extension] mounts is that closure. *)
Theorem hook_declines_manifest extension description path s :
  hook_closure extension description path s =
    (if bool_decide (extension = "json" ∧ webpack_assets_path (this s) = Some path)
     then (Return None, s)
     else require path description s) ∧
  (let s1 := snd (register_extension extension description s) in
   let h := next_handle (node s) in
   mounted (node s1) !! h = Some (ExtensionHook extension description) ∧
   step normalize_asset_path webpack_path path_resolve
     to_javascript_module_source (Load h path) s1 =
     snd (hook_closure extension description path s1)).
Proof.
  split.
  - apply hook_closure_unfold.
  - simpl. unfold register_extension, mount_hook. js_unfold. simpl.
    rewrite lookup_insert_eq. by split.
Qed.

Lemma assets_unfold s :
  assets s =
    (if truthy (Options.development (options (this s))) && negb (manifest_on_disk s)
     then (Return (JsonExports default_webpack_assets),
           set_log (λ entries, entries ++
             [(Error, dquote +:+ show_path (webpack_assets_path (this s)) +:+ dquote +:+
                " not found. Most likely it hasn't yet been generated by Webpack. Using an empty stub instead.")]) s)
     else node_require (webpack_assets_path (this s)) s).
Proof.
  unfold assets, manifest_on_disk, existsSync. js_unfold. simpl.
  destruct (truthy _); simpl; [|done].
  destruct (webpack_assets_path (this s)) as [p|]; simpl; [|done].
  destruct (bool_decide _); done.
Qed.

Lemma node_require_result path s :
  fst (node_require path s) =
    match path with
    | None => Throw (TypeError "path must be a string")
    | Some p =>
        match require_cache (node s) !! p with
        | Some e => Return e
        | None =>
            match files (node s) !! p with
            | Some m => Return (JsonExports m)
            | None => Throw (ModuleNotFound p)
            end
        end
    end.
Proof.
  unfold node_require. js_unfold. destruct path as [p|]; simpl; [|done].
  destruct (require_cache (node s) !! p); simpl; [done |].
  destruct (files (node s) !! p); done.
Qed.

(** C8: in development mode with no manifest file on disk, [assets()]
    returns the empty default manifest and its only effect is one error
    in the log; in every other case it is Node's [require] of the
    manifest file path, which yields the contents of the file when it
    is on disk and not yet in the require cache. *)
Theorem assets_missing_manifest_stub s :
  assets s =
    (if truthy (Options.development (options (this s))) && negb (manifest_on_disk s)
     then (Return (JsonExports default_webpack_assets),
           set_log (λ entries, entries ++
             [(Error, dquote +:+ show_path (webpack_assets_path (this s)) +:+ dquote +:+
                " not found. Most likely it hasn't yet been generated by Webpack. Using an empty stub instead.")]) s)
     else node_require (webpack_assets_path (this s)) s) ∧
  (∀ p m, webpack_assets_path (this s) = Some p →
          files (node s) !! p = Some m →
          require_cache (node s) !! p = None →
          fst (assets s) = Return (JsonExports m)).
Proof.
  pose proof (assets_unfold s) as Hmain.
  split; [exact Hmain |].
  intros p m Hp Hfile Hcache. rewrite Hmain. unfold manifest_on_disk.
  rewrite Hp, Hfile. rewrite bool_decide_eq_true_2 by eauto.
  rewrite andb_false_r. unfold node_require. js_unfold. simpl.
  by rewrite Hcache, Hfile.
Qed.


Lemma assets_keeps_cached_assets :
  preserves (λ s, cached_assets (this s)) assets.
Proof. unfold assets. frame. Qed.

Lemma asset_source_keeps_cached_assets asset_path :
  preserves (λ s, cached_assets (this s)) (asset_source asset_path).
Proof.
  unfold asset_source. frame; try apply assets_keeps_cached_assets; frame.
Qed.

(** The outcome of [assets()] depends on the options, the manifest path
    and the process only. *)
Lemma assets_result_frame s s' :
  options (this s) = options (this s') →
  webpack_assets_path (this s) = webpack_assets_path (this s') →
  node s = node s' →
  fst (assets s) = fst (assets s').
Proof.
  intros Ho Hp Hn. rewrite !assets_unfold. unfold manifest_on_disk.
  rewrite Ho, Hp, Hn.
  destruct (_ && _); simpl; [done |].
  by rewrite !node_require_result, Hn.
Qed.

(** C5: when the project path is set, the policy admits the normalized
    path, the manifest key is a non-empty string and the manifest that
    [assets()] yields has no entry for it, [require] does not decline and
    does not throw: it returns the module source made of [undefined],
    and the last thing logged is the error for the missing asset. *)
Theorem missing_asset_is_claimed s global_asset_path description root
    manifest entries :
  Options.project_path (options (this s)) = Some root →
  root ≠ "" →
  policy (normalize_asset_path global_asset_path root) description →
  webpack_path (normalize_asset_path global_asset_path root) ≠ "" →
  fst (assets s) = Return manifest →
  property_assets manifest = Some entries →
  entries !! webpack_path (normalize_asset_path global_asset_path root) = None →
  ∃ s',
    require global_asset_path description s =
      (Return (Some (to_javascript_module_source None)), s') ∧
    last (log (this s')) =
      Some (Error, "asset not found: " +:+
                   webpack_path (normalize_asset_path global_asset_path root)).
Proof.
  intros Hroot Hne Hpolicy Hkey Hassets Hprop Hmissing.
  apply skip_condition_spec in Hpolicy.
  unfold_require.
  unfold bind at 1. unfold log_debug, log_at, modify at 1.
  unfold bind at 1. unfold gets at 1. simpl.
  rewrite Hroot, (truthy_string_Some _ Hne). simpl. rewrite Hpolicy.
  unfold bind at 1. unfold options_development, gets at 1. simpl.
  unfold bind at 1.
  set (s1 := set_log _ s).
  assert (Hpush : ∃ s2,
    (if truthy (Options.development (options (this s)))
     then modify (set_cached_assets (λ l, l ++ [global_asset_path]))
     else ret tt) s1 = (Return tt, s2) ∧
    options (this s2) = options (this s) ∧
    webpack_assets_path (this s2) = webpack_assets_path (this s) ∧
    node s2 = node s).
  { destruct (truthy _); eexists; (split; [reflexivity | done]). }
  destruct Hpush as (s2 & -> & Ho & Hp & Hn).
  unfold bind at 1. unfold asset_source.
  unfold bind at 1. unfold log_debug, log_at, modify at 1.
  rewrite (truthy_string_Some _ Hkey). simpl.
  unfold bind at 1.
  set (s3 := set_log _ s2).
  assert (Hs3 : fst (assets s3) = Return manifest).
  { rewrite <- Hassets. apply assets_result_frame; subst s3; simpl; done. }
  destruct (assets s3) as [r s4]. simpl in Hs3. subst r.
  rewrite Hprop, Hmissing. simpl. js_unfold. simpl.
  eexists. split; [reflexivity |]. simpl. apply last_snoc.
Qed.

(** C10: in development mode, a load that the policy admits is pushed
    onto [cached_assets] before the manifest is looked up: [require] is
    the lookup run from the state in which the path is already recorded,
    whatever the lookup then does (finds the asset, misses it, throws). *)
Theorem require_tracks_before_lookup s global_asset_path description root :
  truthy (Options.development (options (this s))) = true →
  Options.project_path (options (this s)) = Some root →
  root ≠ "" →
  policy (normalize_asset_path global_asset_path root) description →
  let tracked :=
    set_cached_assets (λ l, l ++ [global_asset_path])
      (set_log (λ entries,
         entries ++ [(Debug, "require() called for " +:+ global_asset_path)]) s) in
  cached_assets (this tracked) = cached_assets (this s) ++ [global_asset_path] ∧
  require global_asset_path description s =
    (match asset_source
             (webpack_path (normalize_asset_path global_asset_path root)) tracked with
     | (Return source, s') => (Return (Some (to_javascript_module_source source)), s')
     | (Throw e, s') => (Throw e, s')
     end) ∧
  cached_assets (this (snd (require global_asset_path description s))) =
    cached_assets (this s) ++ [global_asset_path].
Proof.
  intros Hdev Hroot Hne Hpolicy tracked.
  apply skip_condition_spec in Hpolicy.
  assert (Hreq : require global_asset_path description s =
    match asset_source
            (webpack_path (normalize_asset_path global_asset_path root)) tracked with
    | (Return source, s') => (Return (Some (to_javascript_module_source source)), s')
    | (Throw e, s') => (Throw e, s')
    end).
  { unfold_require.
    unfold bind at 1. unfold log_debug, log_at, modify at 1.
    unfold bind at 1. unfold gets at 1. simpl.
    rewrite Hroot, (truthy_string_Some _ Hne). simpl. rewrite Hpolicy.
    unfold bind at 1. unfold options_development, gets at 1. simpl.
    rewrite Hdev. unfold bind at 1. unfold modify at 1.
    unfold bind at 1. fold tracked.
    destruct (asset_source _ tracked) as [[v|e] s']; done. }
  split; [done |]. split; [exact Hreq |].
  rewrite Hreq.
  pose proof (asset_source_keeps_cached_assets
    (webpack_path (normalize_asset_path global_asset_path root)) tracked) as Hkeep.
  simpl in Hkeep.
  destruct (asset_source _ tracked) as [[v|e] s']; simpl in *; by rewrite Hkeep.
Qed.


(** ** Mounting and unmounting hooks *)

Lemma unmount_loop handles s :
  for_of handles unmount s =
    (Return tt, set_mounted (λ m, foldl (λ m h, delete h m) m handles) s).
Proof.
  revert s. induction handles as [|h handles IH]; intros [t []]; simpl.
  - done.
  - unfold bind, unmount at 1, modify. by rewrite IH.
Qed.

Lemma foldl_delete_handle (handles : list nat) (m : gmap nat mount) h :
  foldl (λ m h, delete h m) m handles !! h =
  if bool_decide (h ∈ handles) then None else m !! h.
Proof.
  revert m. induction handles as [|k handles IH]; intros m; cbn [foldl].
  - rewrite bool_decide_eq_false_2; [done | apply not_elem_of_nil].
  - rewrite IH. destruct (decide (h ∈ handles)) as [Hin|Hnin].
    + rewrite !bool_decide_eq_true_2; [done | by right | done].
    + rewrite (bool_decide_eq_false_2 _ Hnin).
      destruct (decide (h = k)) as [->|Hne].
      * rewrite bool_decide_eq_true_2 by left. apply lookup_delete_eq.
      * rewrite bool_decide_eq_false_2.
        -- by apply lookup_delete_ne.
        -- intros [?|?]%elem_of_cons; done.
Qed.

Lemma undo_unfold s :
  undo s = (Return tt, set_mounted (λ _, unmounted s) s).
Proof.
  unfold undo. unfold bind at 1. unfold gets at 1.
  unfold bind at 1. rewrite unmount_loop.
  unfold bind at 1. unfold gets at 1. unfold unmounted.
  destruct s as [[o p hs c [a|] l] []]; done.
Qed.

Lemma unmounted_lookup s h :
  unmounted s !! h =
  if bool_decide (h ∈ hooks (this s) ∨ alias_hook (this s) = Some h)
  then None else mounted (node s) !! h.
Proof.
  unfold unmounted. destruct (alias_hook (this s)) as [a|].
  - destruct (decide (a = h)) as [->|Hne].
    + rewrite lookup_delete_eq. by rewrite bool_decide_eq_true_2 by (by right).
    + rewrite lookup_delete_ne by done. rewrite foldl_delete_handle.
      destruct (decide (h ∈ hooks (this s))).
      * rewrite !bool_decide_eq_true_2; [done | by left | done].
      * rewrite !bool_decide_eq_false_2; [done | | done].
        intros [? | [= ?]]; done.
  - rewrite foldl_delete_handle. destruct (decide (h ∈ hooks (this s))).
    + rewrite !bool_decide_eq_true_2; [done | by left | done].
    + rewrite !bool_decide_eq_false_2; [done | | done].
      intros [? | [= ?]]; done.
Qed.

Lemma unmounted_idempotent s :
  unmounted (set_mounted (λ _, unmounted s) s) = unmounted s.
Proof.
  apply map_eq. intros h. rewrite unmounted_lookup.
  destruct s as [[] []]; simpl. case_bool_decide as Hh; [|done].
  symmetry. rewrite unmounted_lookup. simpl. by rewrite bool_decide_eq_true_2.
Qed.

(** A loop keeps what each turn keeps, also when a turn throws. *)
Lemma for_of_invariant {A} (P : state → Prop) (xs : list A) body :
  (∀ x s, P s → P (snd (body x s))) →
  ∀ s, P s → P (snd (for_of xs body s)).
Proof.
  intros Hbody. induction xs as [|x xs IH]; intros s Hs; simpl; [done |].
  unfold bind. specialize (Hbody x s Hs).
  destruct (body x s) as [[[]|e] s']; simpl in *; [by apply IH | done].
Qed.

Lemma register_extension_unfold extension description s :
  register_extension extension description s =
    (Return tt,
     set_hooks (λ l, l ++ [next_handle (node s)])
       (set_next_handle (S (next_handle (node s)))
          (set_mounted (insert (next_handle (node s))
                          (ExtensionHook extension description))
             (set_log (λ entries, entries ++
                [(Debug, " registering a require() hook for *." +:+ extension)])
                s)))).
Proof. done. Qed.

(** Every handle whose mount [register()] changes is recorded in
    [this.hooks]. *)
Lemma register_records_hooks s h :
  mounted (node (snd (register s))) !! h ≠ mounted (node s) !! h →
  h ∈ hooks (this (snd (register s))).
Proof.
  set (P := λ s' : state,
    ∀ h, mounted (node s') !! h ≠ mounted (node s) !! h → h ∈ hooks (this s')).
  assert (Hstep : ∀ extension description s',
    P s' → P (snd (register_extension extension description s'))).
  { intros extension description s' Hs' k. rewrite register_extension_unfold.
    simpl. destruct (decide (next_handle (node s') = k)) as [->|Hne].
    - intros _. apply elem_of_app. right. by left.
    - rewrite lookup_insert_ne by done. intros Hk.
      apply elem_of_app. left. by apply Hs'. }
  revert h. change (P (snd (register s))).
  unfold register. unfold bind at 1. unfold log_debug, log_at, modify at 1.
  unfold bind at 1. unfold gets at 1.
  apply for_of_invariant.
  - intros [asset_type description] s' Hs'. simpl.
    apply for_of_invariant; [|done]. intros extension s''. apply Hstep.
  - intros k. simpl. done.
Qed.

(** C9: [undo()] returns normally and unmounts every hook the instance
    has recorded: all the extension hooks of [this.hooks] and the
    aliasing hook if there is one; no other mount is touched and the
    instance itself is unchanged.  A second [undo()] also returns
    normally and changes nothing.  Every mount that [register()] or
    [enable_aliasing()] makes is recorded, and so is gone after
    [undo()]. *)
Theorem undo_unmounts_and_is_idempotent s :
  ∃ s',
    undo s = (Return tt, s') ∧
    this s' = this s ∧
    (∀ h, h ∈ hooks (this s) ∨ alias_hook (this s) = Some h →
          mounted (node s') !! h = None) ∧
    (∀ h, h ∉ hooks (this s) → alias_hook (this s) ≠ Some h →
          mounted (node s') !! h = mounted (node s) !! h) ∧
    undo s' = (Return tt, s') ∧
    (∀ h, mounted (node (snd (register s))) !! h ≠ mounted (node s) !! h →
          mounted (node (snd (undo (snd (register s))))) !! h = None) ∧
    (mounted (node (snd (enable_aliasing s))) !! next_handle (node s) =
       Some (GlobalHook "aliasing") ∧
     mounted (node (snd (undo (snd (enable_aliasing s))))) !! next_handle (node s) =
       None).
Proof.
  exists (set_mounted (λ _, unmounted s) s).
  split; [apply undo_unfold |]. split; [done |]. split; [|split; [|split]].
  - intros h Hh. simpl. rewrite unmounted_lookup. by rewrite bool_decide_eq_true_2.
  - intros h Hh Ha. simpl. rewrite unmounted_lookup.
    rewrite bool_decide_eq_false_2; [done | by intros [?|?]].
  - rewrite undo_unfold. f_equal. rewrite unmounted_idempotent.
    by destruct s as [[] []].
  - split.
    + intros h Hh. apply register_records_hooks in Hh.
      rewrite undo_unfold. simpl. rewrite unmounted_lookup.
      rewrite bool_decide_eq_true_2; [done | by left].
    + split.
      * unfold enable_aliasing, mount_hook. js_unfold. simpl.
        by rewrite lookup_insert_eq.
      * rewrite undo_unfold. simpl. rewrite unmounted_lookup.
        rewrite bool_decide_eq_true_2; [done | by right].
Qed.

(** ** What the events do to [cached_assets] *)

Abbreviation cached s := (cached_assets (this s)).
Abbreviation in_development s :=
  (truthy (Options.development (options (this s)))).
Abbreviation step := (step normalize_asset_path webpack_path path_resolve
                        to_javascript_module_source).
Abbreviation run := (run normalize_asset_path webpack_path path_resolve
                       to_javascript_module_source).

Lemma require_unfold path description s :
  require path description s =
    let s0 := set_log (λ entries,
                entries ++ [(Debug, "require() called for " +:+ path)]) s in
    let root := Options.project_path (options (this s)) in
    if negb (truthy_string root) then
      (Throw (JsError "You forgot to call the .server() method passing it your project's base path"), s0)
    else
      let asset_path := normalize_asset_path path (default "" root) in
      if negb (includes asset_path description) || excludes asset_path description
      then (Return None,
            set_log (λ entries, entries ++
              [(Debug, " skipping require call for " +:+ asset_path)]) s0)
      else
        let s1 := if in_development s
                  then set_cached_assets (λ l, l ++ [path]) s0 else s0 in
        match asset_source (webpack_path asset_path) s1 with
        | (Return source, s') =>
            (Return (Some (to_javascript_module_source source)), s')
        | (Throw e, s') => (Throw e, s')
        end.
Proof.
  unfold_require. js_unfold. simpl.
  destruct (negb (truthy_string _)); [done |].
  destruct (negb _ || _); [done |]. simpl.
  destruct (in_development s); simpl;
    match goal with
    | |- context [asset_source ?k ?st] => by destruct (asset_source k st) as [[v|e] s']
    end.
Qed.











Lemma refresh_unfold s :
  refresh s =
    if negb (in_development s) then
      (Throw (JsError ".refresh() called in production mode. Did you forget to call .development() method on your webpack-isomorphic-tools server instance?"), s)
    else
      (Return tt,
       set_cached_assets (λ _, [])
         (flushed (cached s)
            (set_require_cache (delete (show_path (webpack_assets_path (this s))))
               (set_log (λ entries, entries ++ [(Debug, "flushing require() caches")])
                  s)))).
Proof.
  unfold refresh.
  unfold bind at 1. unfold options_development, gets at 1.
  destruct (in_development s); simpl; [|done].
  unfold bind at 1. unfold log_debug, log_at, modify at 1.
  unfold bind at 1. unfold gets at 1.
  unfold bind at 1. unfold delete_require_cache at 1. unfold modify at 1.
  unfold bind at 1. unfold gets at 1.
  unfold bind at 1. rewrite flush_loop. unfold modify. done.
Qed.







(** ** Waiting for the manifest *)

Lemma check_unfold k s :
  check k s =
    if manifest_on_disk s
    then (Return tt, set_called (λ l, l ++ [(k, now (node s))]) s)
    else (Return tt,
          set_timers (λ q, q ++ [((now (node s) + interval)%N, Check k)])
            (set_log (λ entries,
               entries ++
               [(Debug, "(" +:+ show_path (webpack_assets_path (this s)) +:+ " not found)");
                (Info, "(waiting for the first Webpack build to finish)")]) s)).
Proof.
  unfold check, manifest_on_disk, existsSync, proceed, setTimeout. js_unfold.
  simpl. destruct (webpack_assets_path (this s)) as [p|]; simpl.
  - destruct (bool_decide _); [done |]. simpl.
    destruct s as [[] []]; simpl. unfold set_timers, set_log; simpl.
    by rewrite <- app_assoc.
  - destruct s as [[] []]; simpl. unfold set_timers, set_log; simpl.
    by rewrite <- app_assoc.
Qed.

Lemma tick_unfold late disk s :
  step (Tick late disk) s =
    match timers (node s) with
    | [] => set_now (now (node s) + late)%N (set_files disk s)
    | (due, Check k) :: rest =>
        snd (check k
               (set_timers (λ _, rest)
                  (set_now (N.max (now (node s)) due + late)%N (set_files disk s))))
    end.
Proof.
  unfold_step. unfold tick. js_unfold. simpl.
  destruct (timers (node s)) as [|[due [k]] rest]; done.
Qed.

Lemma tick_negative k s0 w late disk :
  polling k s0 w →
  on_disk (webpack_assets_path (this s0)) disk = false →
  polling k s0 (step (Tick late disk) w) ∧
  now (node (step (Tick late disk) w)) = (now (node w) + interval + late)%N.
Proof.
  intros (Ht & Hc & Hp) Hdisk. rewrite tick_unfold, Ht, check_unfold.
  unfold manifest_on_disk. simpl. rewrite Hp. fold (on_disk (webpack_assets_path (this s0)) disk).
  rewrite Hdisk. unfold polling. simpl.
  replace (N.max (now (node w)) (now (node w) + interval) + late)%N
    with (now (node w) + interval + late)%N by lia.
  done.
Qed.

Lemma ticks_negative k s0 w negatives :
  polling k s0 w →
  Forall (λ t, on_disk (webpack_assets_path (this s0)) (snd t) = false) negatives →
  polling k s0 (run (ticks negatives) w) ∧
  now (node (run (ticks negatives) w)) = (now (node w) + elapsed negatives)%N.
Proof.
  intros Hw Hneg. revert w Hw.
  induction Hneg as [|[late disk] negatives Hdisk _ IH]; intros w Hw.
  - simpl. split; [done | lia].
  - destruct (tick_negative k s0 w late disk Hw Hdisk) as [Hw' Hnow].
    destruct (IH _ Hw') as [Hfinal Hnow'].
    change (run (ticks ((late, disk) :: negatives)) w)
      with (run (ticks negatives) (step (Tick late disk) w)).
    split; [done |]. rewrite Hnow', Hnow. simpl. lia.
Qed.

Lemma tick_positive k s0 w late disk :
  polling k s0 w →
  on_disk (webpack_assets_path (this s0)) disk = true →
  let found := step (Tick late disk) w in
  called (node found) = called (node s0) ++ [(k, now (node found))] ∧
  now (node found) = (now (node w) + interval + late)%N ∧
  timers (node found) = [].
Proof.
  intros (Ht & Hc & Hp) Hdisk. cbv zeta. rewrite tick_unfold, Ht, check_unfold.
  unfold manifest_on_disk. simpl. rewrite Hp.
  fold (on_disk (webpack_assets_path (this s0)) disk). rewrite Hdisk. simpl.
  replace (N.max (now (node w)) (now (node w) + interval) + late)%N
    with (now (node w) + interval + late)%N by lia.
  by rewrite Hc.
Qed.

Lemma ticks_idle w turns :
  timers (node w) = [] →
  called (node (run (ticks turns) w)) = called (node w) ∧
  timers (node (run (ticks turns) w)) = [].
Proof.
  revert w. induction turns as [|[late disk] turns IH]; intros w Ht; [done |].
  change (run (ticks ((late, disk) :: turns)) w)
    with (run (ticks turns) (step (Tick late disk) w)).
  assert (Hstep : called (node (step (Tick late disk) w)) = called (node w) ∧
                  timers (node (step (Tick late disk) w)) = []).
  { rewrite tick_unfold, Ht. simpl. done. }
  destruct Hstep as [Hc Ht']. destruct (IH _ Ht') as [Hc' Ht''].
  split; [by rewrite Hc', Hc | done].
Qed.

(** C4: [wait_for_assets(done)] checks at once: with the manifest on
    disk it calls [done] there and schedules nothing, else it calls
    nothing and schedules one check, 300 ms later.  From then on, while
    the turns of the event loop find no manifest, [done] is not called
    and exactly one check is pending, due 300 ms after the last one; the
    first turn that finds the manifest calls [done] once, at that time,
    and schedules nothing, so that no later turn calls it again. *)
Theorem wait_for_assets_calls_back_once :
  (∀ s k,
     let s' := snd (wait_for_assets k s) in
     if manifest_on_disk s
     then called (node s') = called (node s) ++ [(k, now (node s))] ∧
          timers (node s') = timers (node s)
     else called (node s') = called (node s) ∧
          timers (node s') =
            timers (node s) ++ [((now (node s) + 300)%N, Check k)]) ∧
  (∀ s k negatives late disk rest,
     timers (node s) = [] →
     manifest_on_disk s = false →
     Forall (λ t, on_disk (webpack_assets_path (this s)) (snd t) = false)
       negatives →
     on_disk (webpack_assets_path (this s)) disk = true →
     let waiting := run (ticks negatives) (snd (wait_for_assets k s)) in
     let found := step (Tick late disk) waiting in
     let final := run (ticks rest) found in
     called (node waiting) = called (node s) ∧
     timers (node waiting) = [((now (node waiting) + 300)%N, Check k)] ∧
     now (node waiting) = (now (node s) + elapsed negatives)%N ∧
     called (node found) = called (node s) ++ [(k, now (node found))] ∧
     now (node found) = (now (node waiting) + 300 + late)%N ∧
     timers (node found) = [] ∧
     called (node final) = called (node found) ∧
     timers (node final) = []).
Proof.
  split.
  - intros s k. cbv zeta. unfold wait_for_assets. rewrite check_unfold.
    by destruct (manifest_on_disk s).
  - intros s k negatives late disk rest Ht Hno Hneg Hpos. cbv zeta.
    assert (Hstart : polling k s (snd (wait_for_assets k s)) ∧
                     now (node (snd (wait_for_assets k s))) = now (node s)).
    { unfold wait_for_assets. rewrite check_unfold, Hno. unfold polling. simpl.
      by rewrite Ht. }
    destruct Hstart as [Hstart Hnow0].
    destruct (ticks_negative k s _ negatives Hstart Hneg) as [Hw Hnow].
    destruct (tick_positive k s _ late disk Hw Hpos) as (Hc & Hn & Hq).
    destruct (ticks_idle _ rest Hq) as [Hc' Hq'].
    destruct Hw as (Hwt & Hwc & _).
    repeat split; try done.
    by rewrite Hnow, Hnow0.
Qed.

End Properties.

(** ** Further properties of the methods *)

Section Extras.

Variable normalize_asset_path : string → string → string.
Variable webpack_path : string → string.
Variable path_resolve : string → string → string.
Variable to_javascript_module_source : option value → string.

Abbreviation require :=
  (require normalize_asset_path webpack_path to_javascript_module_source).
Abbreviation hook_closure :=
  (hook_closure normalize_asset_path webpack_path to_javascript_module_source).
Abbreviation cached s := (cached_assets (this s)).
Abbreviation in_development s :=
  (truthy (Options.development (options (this s)))).
Abbreviation step := (step normalize_asset_path webpack_path path_resolve
                        to_javascript_module_source).
Abbreviation run := (run normalize_asset_path webpack_path path_resolve
                       to_javascript_module_source).

(** *** Loads *)

Lemma asset_source_unfold asset_path s :
  asset_source asset_path s =
    let s0 := set_log (λ entries,
                entries ++ [(Debug, " requiring " +:+ asset_path)]) s in
    if negb (truthy_string (Some asset_path)) then (Return None, s0)
    else
      match assets s0 with
      | (Return manifest, s1) =>
          match property_assets manifest with
          | None => (Throw (TypeError "Cannot read property of undefined"), s1)
          | Some entries =>
              match entries !! asset_path with
              | Some asset => (Return (Some asset), s1)
              | None =>
                  (Return None,
                   set_log (λ entries,
                     entries ++ [(Error, "asset not found: " +:+ asset_path)]) s1)
              end
          end
      | (Throw e, s1) => (Throw e, s1)
      end.
Proof.
  unfold asset_source.
  unfold bind at 1. unfold log_debug, log_at, modify at 1. cbv zeta.
  destruct (negb (truthy_string (Some asset_path))); [done |].
  unfold bind at 1.
  destruct (assets _) as [[manifest|e] s1]; [|done].
  destruct (property_assets manifest) as [entries|]; [|done].
  by destruct (entries !! asset_path).
Qed.

Lemma require_admitted path description root s :
  Options.project_path (options (this s)) = Some root →
  root ≠ "" →
  policy (normalize_asset_path path root) description →
  require path description s =
    match asset_source (webpack_path (normalize_asset_path path root))
            (entered path s) with
    | (Return source, s') => (Return (Some (to_javascript_module_source source)), s')
    | (Throw e, s') => (Throw e, s')
    end.
Proof.
  intros Hroot Hne Hpolicy. apply skip_condition_spec in Hpolicy.
  rewrite require_unfold. cbv zeta.
  rewrite Hroot, (truthy_string_Some _ Hne). simpl. by rewrite Hpolicy.
Qed.

Lemma entered_assets path s :
  fst (assets (set_log (λ entries, entries ++ [(Debug, " requiring " +:+ path)])
                 (entered path s))) = fst (assets s) ∧
  ∀ k, fst (assets (set_log (λ entries, entries ++ [(Debug, " requiring " +:+ k)])
                      (entered path s))) = fst (assets s).
Proof.
  assert (H : ∀ k, fst (assets (set_log (λ entries,
                entries ++ [(Debug, " requiring " +:+ k)]) (entered path s)))
              = fst (assets s)).
  { intros k. apply assets_result_frame; unfold entered;
      destruct (in_development s); done. }
  split; [apply H | exact H].
Qed.

(** X1: until the project path is known, [require] throws: it logs the
    call and nothing else happens, whatever the description and the
    mode. *)
Theorem require_without_project_path_throws s path description :
  truthy_string (Options.project_path (options (this s))) = false →
  ∃ e,
    require path description s =
      (Throw e,
       set_log (λ entries,
         entries ++ [(Debug, "require() called for " +:+ path)]) s) ∧
    cached (snd (require path description s)) = cached s ∧
    node (snd (require path description s)) = node s.
Proof.
  intros Hnone. rewrite require_unfold. cbv zeta. rewrite Hnone. simpl.
  eexists. split; [reflexivity | done].
Qed.



Lemma node_require_keeps_log path :
  preserves (λ s, log (this s)) (node_require path).
Proof. frame. Qed.

Lemma entered_log path s :
  log (this (entered path s)) =
    log (this s) ++ [(Debug, "require() called for " +:+ path)].
Proof. unfold entered. by destruct (in_development s). Qed.

Lemma entered_cached path s :
  cached (entered path s) =
    if in_development s then cached s ++ [path] else cached s.
Proof. unfold entered. by destruct (in_development s). Qed.

Lemma entered_node path s : node (entered path s) = node s.
Proof. unfold entered. by destruct (in_development s). Qed.

(** X2: a load that the policy admits and whose non-empty key the
    manifest maps to a value returns the module source of that value.
    It logs two debug lines and no error, and the path is recorded
    exactly in development mode. *)
Theorem found_asset_is_served s path description root manifest entries asset :
  Options.project_path (options (this s)) = Some root →
  root ≠ "" →
  policy (normalize_asset_path path root) description →
  webpack_path (normalize_asset_path path root) ≠ "" →
  fst (assets s) = Return manifest →
  property_assets manifest = Some entries →
  entries !! webpack_path (normalize_asset_path path root) = Some asset →
  ∃ s',
    require path description s =
      (Return (Some (to_javascript_module_source (Some asset))), s') ∧
    cached s' = (if in_development s then cached s ++ [path] else cached s) ∧
    log (this s') =
      log (this s) ++
      [(Debug, "require() called for " +:+ path);
       (Debug, " requiring " +:+ webpack_path (normalize_asset_path path root))].
Proof.
  intros Hroot Hne Hpolicy Hkey Hassets Hprop Hfound.
  rewrite (require_admitted _ _ _ _ Hroot Hne Hpolicy).
  rewrite asset_source_unfold. cbv zeta.
  rewrite (truthy_string_Some _ Hkey). simpl.
  set (key := webpack_path (normalize_asset_path path root)) in *.
  set (s0 := set_log _ (entered path s)).
  assert (Hs0 : log (this s0) =
                log (this s) ++ [(Debug, "require() called for " +:+ path);
                                 (Debug, " requiring " +:+ key)]).
  { subst s0. simpl. rewrite entered_log, <- app_assoc. done. }
  pose proof (proj2 (entered_assets path s) key) as Hsame. fold s0 in Hsame.
  pose proof (assets_keeps_cached_assets s0) as Hkeep.
  pose proof (assets_unfold s0) as Hunfold.
  pose proof (node_require_keeps_log (webpack_assets_path (this s0)) s0) as Hnode.
  cbv beta in Hnode. destruct (assets s0) as [r s1].
  simpl in Hsame, Hkeep. rewrite Hassets in Hsame. subst r.
  rewrite Hprop, Hfound. eexists. split; [reflexivity |]. split.
  - rewrite Hkeep. subst s0. simpl. apply entered_cached.
  - destruct (_ && _) in Hunfold.
    + injection Hunfold as Hm _. subst manifest.
      simpl in Hprop. injection Hprop as <-. by rewrite lookup_empty in Hfound.
    + rewrite <- Hunfold in Hnode. simpl in Hnode. by rewrite Hnode.
Qed.

(** X3: a load that the policy does not admit is declined without a
    trace: [require] returns [undefined] and only logs two debug lines;
    the path is not recorded, even in development mode, and the manifest
    is not read. *)
Theorem declined_load_leaves_no_trace s path description root :
  Options.project_path (options (this s)) = Some root →
  root ≠ "" →
  ¬ policy (normalize_asset_path path root) description →
  require path description s =
    (Return None,
     set_log (λ entries,
       entries ++ [(Debug, "require() called for " +:+ path);
                   (Debug, " skipping require call for " +:+
                           normalize_asset_path path root)]) s).
Proof.
  intros Hroot Hne Hpolicy. rewrite <- skip_condition_spec in Hpolicy.
  apply not_false_is_true in Hpolicy.
  rewrite require_unfold. cbv zeta.
  rewrite Hroot, (truthy_string_Some _ Hne). simpl. rewrite Hpolicy.
  f_equal. destruct s as [[] []]. unfold set_log. simpl.
  by rewrite <- app_assoc.
Qed.

Lemma assets_result s :
  fst (assets s) =
    if in_development s && negb (manifest_on_disk s)
    then Return (JsonExports default_webpack_assets)
    else
      match webpack_assets_path (this s) with
      | None => Throw (TypeError "path must be a string")
      | Some p =>
          match require_cache (node s) !! p with
          | Some e => Return e
          | None =>
              match files (node s) !! p with
              | Some m => Return (JsonExports m)
              | None => Throw (ModuleNotFound p)
              end
          end
      end.
Proof.
  rewrite assets_unfold. destruct (_ && _); [done |].
  apply node_require_result.
Qed.

(** X5: in development mode, with the project path set and no manifest
    file on disk, [require] never throws and never reads the require
    cache: it declines, or claims the load with the module source of
    [undefined]; the process is left as it was. *)
Theorem development_load_without_manifest_never_throws s path description root :
  in_development s = true →
  Options.project_path (options (this s)) = Some root →
  root ≠ "" →
  manifest_on_disk s = false →
  ∃ s',
    (require path description s = (Return None, s') ∨
     require path description s =
       (Return (Some (to_javascript_module_source None)), s')) ∧
    node s' = node s.
Proof.
  intros Hdev Hroot Hne Hnone.
  rewrite require_unfold. cbv zeta.
  rewrite Hroot, (truthy_string_Some _ Hne). simpl.
  destruct (negb _ || _); [eexists; split; [by left | done] |].
  rewrite asset_source_unfold. cbv zeta. rewrite Hdev.
  destruct (negb (truthy_string _)); [eexists; split; [by right | done] |].
  match goal with |- context [assets ?st] => set (s0 := st) end.
  assert (Hmode : in_development s0 && negb (manifest_on_disk s0) = true).
  { subst s0. unfold manifest_on_disk in *. simpl. by rewrite Hdev, Hnone. }
  rewrite (assets_unfold s0), Hmode.
  cbn [property_assets default_webpack_assets Manifest.assets].
  rewrite lookup_empty. eexists. split; [by right | done].
Qed.

(** X6: in production mode, an admitted load with a non-empty key
    throws when the manifest is neither in the require cache nor on
    disk: the error is Node's, for the manifest path, and nothing is
    recorded. *)
Theorem production_load_without_manifest_throws s path description root p :
  in_development s = false →
  Options.project_path (options (this s)) = Some root →
  root ≠ "" →
  policy (normalize_asset_path path root) description →
  webpack_path (normalize_asset_path path root) ≠ "" →
  webpack_assets_path (this s) = Some p →
  files (node s) !! p = None →
  require_cache (node s) !! p = None →
  fst (require path description s) = Throw (ModuleNotFound p) ∧
  cached (snd (require path description s)) = cached s.
Proof.
  intros Hdev Hroot Hne Hpolicy Hkey Hp Hfile Hc.
  rewrite (require_admitted _ _ _ _ Hroot Hne Hpolicy).
  rewrite asset_source_unfold. cbv zeta.
  rewrite (truthy_string_Some _ Hkey). simpl.
  match goal with |- context [assets ?st] => set (s0 := st) end.
  assert (Hsame : fst (assets s0) = fst (assets s)).
  { subst s0. apply (proj2 (entered_assets path s)). }
  pose proof (assets_keeps_cached_assets s0) as Hkeep. simpl in Hkeep.
  assert (Hs0 : cached s0 = cached s).
  { subst s0. simpl. rewrite entered_cached. by rewrite Hdev. }
  rewrite (assets_result s), Hdev, Hp, Hc, Hfile in Hsame. cbn [andb] in Hsame.
  destruct (assets s0) as [r s1]. cbn [fst snd] in *. subst r. cbn [fst snd].
  split; [done | by rewrite Hkeep].
Qed.

(** *** The mode and the caches *)

Lemma development_unfold flag s :
  development flag s =
    (Return tt,
     set_log (λ entries,
       entries ++ [(Debug, if truthy (if exists_ flag then flag
                                      else Some (VBool true))
                           then "entering development mode"
                           else "entering production mode")])
       (set_options (with_development
                       (if exists_ flag then flag else Some (VBool true))) s)).
Proof.
  unfold development. unfold bind at 1. unfold modify at 1.
  unfold bind at 1. unfold options_development, gets at 1.
  cbn [set_options this options with_development Options.development].
  destruct (truthy _); done.
Qed.

(** X7: [development(flag)] returns normally and stores the flag, or
    [true] when the flag is left out, in [options.development]:
    development mode is on when the flag is left out or truthy and off
    when it is given and falsy.  It adds one debug line to the log and
    changes nothing else: not the other options, not the other fields
    of the instance, not the process.  [refresh()] right after it
    returns normally in the first case and throws in the second. *)
Theorem development_decides_refresh flag s :
  let s' := snd (development flag s) in
  let on := match flag with
            | Some v => truthy (Some v)
            | None => true
            end in
  fst (development flag s) = Return tt ∧
  Options.development (options (this s')) =
    (if exists_ flag then flag else Some (VBool true)) ∧
  in_development s' = on ∧
  Options.project_path (options (this s')) =
    Options.project_path (options (this s)) ∧
  Options.webpack_assets_file_path (options (this s')) =
    Options.webpack_assets_file_path (options (this s)) ∧
  Options.assets (options (this s')) = Options.assets (options (this s)) ∧
  Options.alias (options (this s')) = Options.alias (options (this s)) ∧
  Options.debug (options (this s')) = Options.debug (options (this s)) ∧
  webpack_assets_path (this s') = webpack_assets_path (this s) ∧
  hooks (this s') = hooks (this s) ∧
  cached s' = cached s ∧
  alias_hook (this s') = alias_hook (this s) ∧
  log (this s') =
    log (this s) ++
    [(Debug, if on then "entering development mode"
             else "entering production mode")] ∧
  node s' = node s ∧
  (fst (refresh s') = Return tt ↔ flag = None ∨ truthy flag = true) ∧
  ((∃ e, fst (refresh s') = Throw e) ↔ ∃ v, flag = Some v ∧ truthy flag = false).
Proof.
  cbv zeta. rewrite development_unfold. cbn [fst snd].
  set (s' := set_log _ _).
  assert (Hmode : in_development s' = match flag with
                                      | Some v => truthy (Some v)
                                      | None => true
                                      end).
  { subst s'. by destruct flag. }
  split; [done |]. split; [done |]. split; [exact Hmode |].
  do 9 (split; [done |]).
  split; [subst s'; by destruct flag |]. split; [done |].
  rewrite refresh_unfold, Hmode.
  destruct flag as [v|]; [destruct (truthy (Some v)) eqn:Hv|]; cbn [negb fst].
  - split; [split; [by right | done] |].
    split; [by intros [? ?] | by intros (? & [= <-] & ?); congruence].
  - split; [split; [done | by intros [? | ?]] |].
    split; [by exists v | eauto].
  - split; [split; [by left | done] |].
    split; [by intros [? ?] | by intros (? & ? & _)].
Qed.

(** X8: after [refresh()] in development mode, [assets()] reads the
    manifest anew: it returns what is on disk now, whatever the require
    cache held for the manifest path before. *)
Theorem refresh_then_assets_reads_disk s p m :
  in_development s = true →
  webpack_assets_path (this s) = Some p →
  files (node s) !! p = Some m →
  fst (assets (snd (refresh s))) = Return (JsonExports m) ∧
  require_cache (node (snd (assets (snd (refresh s))))) !! p = Some (JsonExports m).
Proof.
  intros Hdev Hp Hfile. rewrite refresh_unfold, Hdev. cbn [negb snd].
  set (s' := set_cached_assets _ _).
  assert (Hp' : webpack_assets_path (this s') = Some p) by (subst s'; done).
  assert (Hfile' : files (node s') !! p = Some m) by (subst s'; done).
  assert (Hdev' : in_development s' = true) by (subst s'; done).
  assert (Hc' : require_cache (node s') !! p = None).
  { subst s'. simpl. rewrite foldl_delete_lookup. case_bool_decide; [done |].
    rewrite Hp. apply lookup_delete_eq. }
  split.
  - rewrite assets_result, Hdev', Hp', Hc', Hfile'. unfold manifest_on_disk.
    rewrite Hp', Hfile'. by rewrite bool_decide_eq_true_2 by eauto.
  - rewrite assets_unfold, Hdev'. unfold manifest_on_disk.
    rewrite Hp', Hfile'. rewrite bool_decide_eq_true_2 by eauto. cbn [negb andb].
    unfold node_require. js_unfold. rewrite Hc', Hfile'. simpl.
    apply lookup_insert_eq.
Qed.

(** X9: once [assets()] has gone through Node's [require], its result
    stays in the require cache: a later [assets()] returns the same
    exports although the file has changed on disk, as long as the file
    is there or the mode is production. *)
Theorem assets_served_from_cache s p e disk :
  webpack_assets_path (this s) = Some p →
  in_development s && negb (manifest_on_disk s) = false →
  fst (assets s) = Return e →
  is_Some (disk !! p) ∨ in_development s = false →
  fst (assets (set_files disk (snd (assets s)))) = Return e.
Proof.
  intros Hp Hread He Hdisk.
  assert (Hcached : require_cache (node (snd (assets s))) !! p = Some e ∧
                    options (this (snd (assets s))) = options (this s) ∧
                    webpack_assets_path (this (snd (assets s))) = Some p).
  { rewrite assets_result, Hread, Hp in He.
    rewrite assets_unfold, Hread, Hp. unfold node_require. js_unfold.
    destruct (require_cache (node s) !! p) as [e'|] eqn:Hc.
    - injection He as ->. done.
    - destruct (files (node s) !! p) as [m|]; [|done].
      injection He as <-. simpl. by rewrite lookup_insert_eq. }
  destruct Hcached as (Hc & Ho & Hp').
  set (s1 := snd (assets s)) in *.
  rewrite assets_result. unfold manifest_on_disk. simpl.
  rewrite Ho, Hp', Hc.
  destruct Hdisk as [Hthere | Hprod].
  - rewrite bool_decide_eq_true_2 by done. by rewrite andb_false_r.
  - by rewrite Hprod.
Qed.

(** X10: a second [refresh()] in a row finds nothing left to flush: it
    returns normally, and the require cache and the empty
    [cached_assets] stay as the first one left them. *)
Theorem refresh_twice s :
  in_development s = true →
  let s1 := snd (refresh s) in
  let s2 := snd (refresh s1) in
  fst (refresh s1) = Return tt ∧
  require_cache (node s2) = require_cache (node s1) ∧
  cached s2 = [] ∧
  cached s1 = [].
Proof.
  intros Hdev. cbv zeta. rewrite (refresh_unfold s), Hdev. cbn [negb snd].
  set (s1 := set_cached_assets _ _).
  assert (Hdev1 : in_development s1 = true) by (subst s1; done).
  assert (Hc1 : cached s1 = []) by (subst s1; done).
  assert (Hgone : require_cache (node s1) !!
                    show_path (webpack_assets_path (this s1)) = None).
  { subst s1. simpl. rewrite foldl_delete_lookup. case_bool_decide; [done |].
    apply lookup_delete_eq. }
  rewrite (refresh_unfold s1), Hdev1, Hc1. cbn [negb fst snd].
  split; [done |]. split; [|done]. simpl. by rewrite delete_id.
Qed.

(** *** Matcher lists *)

Lemma includes_loop_app key l1 l2 :
  includes_loop key (l1 ++ l2) = includes_loop key l1 || includes_loop key l2.
Proof.
  apply eq_true_iff_eq. rewrite orb_true_iff, !includes_loop_spec. split.
  - intros (m & [Hm | Hm]%elem_of_app & Hyes); [left | right]; by exists m.
  - intros [(m & Hm & Hyes) | (m & Hm & Hyes)]; exists m;
      (split; [apply elem_of_app; auto | done]).
Qed.

(** X11: a matcher list is a disjunction of its matchers: for include
    and for exclude alike, the answer for two lists put together is the
    disjunction of their answers, and reordering a list does not change
    the answer. *)
Theorem matcher_lists_are_disjunctions key extensions l1 l2 other :
  includes key (Description.mk extensions (Some (l1 ++ l2)) other) =
    includes key (Description.mk extensions (Some l1) other) ||
    includes key (Description.mk extensions (Some l2) other) ∧
  excludes key (Description.mk extensions other (Some (l1 ++ l2))) =
    excludes key (Description.mk extensions other (Some l1)) ||
    excludes key (Description.mk extensions other (Some l2)) ∧
  (l1 ≡ₚ l2 →
   includes key (Description.mk extensions (Some l1) other) =
     includes key (Description.mk extensions (Some l2) other) ∧
   excludes key (Description.mk extensions other (Some l1)) =
     excludes key (Description.mk extensions other (Some l2))).
Proof.
  unfold includes, excludes. cbn [Description.include Description.exclude
    exists_ negb default from_option id].
  rewrite (excludes_loop_includes_loop key (l1 ++ l2)),
    (excludes_loop_includes_loop key l1), (excludes_loop_includes_loop key l2). split; [apply includes_loop_app |].
  split; [apply includes_loop_app |].
  intros Hperm.
  assert (H : includes_loop key l1 = includes_loop key l2).
  { apply eq_true_iff_eq. rewrite !includes_loop_spec.
    split; intros (m & Hm & Hyes); exists m; (split; [|done]).
    - by rewrite <- Hperm.
    - by rewrite Hperm. }
  by rewrite H.
Qed.

(** *** Registration *)

Lemma for_of_app {A} (l1 l2 : list A) body s :
  for_of (l1 ++ l2) body s = bind (for_of l1 body) (λ _, for_of l2 body) s.
Proof.
  revert s. induction l1 as [|x l1 IH]; intros s; [done |].
  cbn [app for_of]. unfold bind.
  destruct (body x s) as [[[]|e] s']; [|done].
  rewrite IH. done.
Qed.

Lemma for_of_map {A C} (g : A → C) (l : list A) body s :
  for_of (map g l) body s = for_of l (λ x, body (g x)) s.
Proof.
  revert s. induction l as [|x l IH]; intros s; [done |].
  cbn [map for_of]. unfold bind.
  destruct (body (g x) s) as [[[]|e] s']; [apply IH | done].
Qed.

Lemma register_loop pairs s :
  for_of pairs (λ pair, register_extension (fst pair) (snd pair)) s =
    (Return tt, mount_all pairs s).
Proof.
  revert s. induction pairs as [|[extension description] pairs IH]; intros s;
    [done |].
  cbn [for_of]. unfold bind. rewrite register_extension_unfold. apply IH.
Qed.

Lemma register_loops (entries : list (string * Description.t)) s :
  for_of entries (λ entry,
    let description := snd entry in
    for_of (Description.extensions description) (λ extension,
      register_extension extension description)) s =
  for_of (flat_map (λ entry, map (λ extension, (extension, snd entry))
                               (Description.extensions (snd entry))) entries)
    (λ pair, register_extension (fst pair) (snd pair)) s.
Proof.
  revert s. induction entries as [|entry entries IH]; intros s; [done |].
  cbn [flat_map for_of]. rewrite for_of_app. unfold bind.
  rewrite (for_of_map (λ extension, (extension, snd entry))). cbn [fst snd].
  destruct (for_of (Description.extensions (snd entry)) _ s) as [[[]|e] s'];
    [apply IH | done].
Qed.

Lemma register_unfold s :
  register s =
    (Return tt,
     mount_all (registrations (options (this s)))
       (set_log (λ entries,
          entries ++ [(Debug, "registering require() hooks for assets")]) s)).
Proof.
  unfold register. unfold bind at 1. unfold log_debug, log_at, modify at 1.
  unfold bind at 1. unfold gets at 1.
  cbn [set_log this options].
  rewrite register_loops. apply register_loop.
Qed.

Lemma mount_all_cons extension description pairs s :
  mount_all ((extension, description) :: pairs) s =
    mount_all pairs (snd (register_extension extension description s)).
Proof. done. Qed.

Lemma mount_all_spec pairs s :
  hooks (this (mount_all pairs s)) =
    hooks (this s) ++ seq (next_handle (node s)) (length pairs) ∧
  next_handle (node (mount_all pairs s)) = next_handle (node s) + length pairs ∧
  (∀ i pair, pairs !! i = Some pair →
     mounted (node (mount_all pairs s)) !! (next_handle (node s) + i) =
       Some (ExtensionHook (fst pair) (snd pair))) ∧
  (∀ h, (h < next_handle (node s) ∨ next_handle (node s) + length pairs ≤ h)%nat →
     mounted (node (mount_all pairs s)) !! h = mounted (node s) !! h).
Proof.
  revert s. induction pairs as [|[extension description] pairs IH]; intros s.
  - cbn [mount_all foldl length seq]. rewrite app_nil_r, Nat.add_0_r.
    split; [done |]. split; [done |]. split; [|done].
    intros i pair Hi. by rewrite lookup_nil in Hi.
  - rewrite mount_all_cons, register_extension_unfold. cbn [snd].
    set (s1 := set_hooks _ _).
    assert (Hh1 : hooks (this s1) = hooks (this s) ++ [next_handle (node s)])
      by done.
    assert (Hn1 : next_handle (node s1) = S (next_handle (node s))) by done.
    assert (Hm1 : mounted (node s1) =
                  <[next_handle (node s) := ExtensionHook extension description]>
                    (mounted (node s))) by done.
    destruct (IH s1) as (Hh & Hn & Hm & Ho).
    rewrite Hh1, Hn1 in *. clearbody s1.
    split; [|split; [|split]].
    + rewrite Hh. cbn [length seq]. by rewrite <- app_assoc.
    + rewrite Hn. cbn [length]. lia.
    + intros [|i] pair Hi.
      * injection Hi as <-. rewrite Nat.add_0_r, Ho by lia.
        rewrite Hm1. apply lookup_insert_eq.
      * replace (next_handle (node s) + S i) with (S (next_handle (node s)) + i)
          by lia.
        by apply Hm.
    + intros h Hh'. cbn [length] in Hh'. rewrite Ho by lia. rewrite Hm1.
      apply lookup_insert_ne. lia.
Qed.

Lemma mount_all_frame pairs s :
  cached (mount_all pairs s) = cached s ∧
  options (this (mount_all pairs s)) = options (this s) ∧
  webpack_assets_path (this (mount_all pairs s)) = webpack_assets_path (this s) ∧
  alias_hook (this (mount_all pairs s)) = alias_hook (this s) ∧
  files (node (mount_all pairs s)) = files (node s) ∧
  require_cache (node (mount_all pairs s)) = require_cache (node s) ∧
  now (node (mount_all pairs s)) = now (node s) ∧
  timers (node (mount_all pairs s)) = timers (node s) ∧
  called (node (mount_all pairs s)) = called (node s).
Proof.
  revert s. induction pairs as [|[extension description] pairs IH]; intros s;
    [done |].
  rewrite mount_all_cons.
  destruct (IH (snd (register_extension extension description s)))
    as (-> & -> & -> & -> & -> & -> & -> & -> & ->).
  done.
Qed.

(** X12: [register()] mounts exactly one hook for every extension of
    every asset type, in the order of the two loops, under consecutive
    new handles which it appends to [this.hooks]; mounts under other
    handles are left alone, and it returns normally. *)
Theorem register_mounts_one_hook_per_extension s :
  let pairs := registrations (options (this s)) in
  let first := next_handle (node s) in
  let s' := snd (register s) in
  fst (register s) = Return tt ∧
  hooks (this s') = hooks (this s) ++ seq first (length pairs) ∧
  next_handle (node s') = first + length pairs ∧
  (∀ i extension description,
     pairs !! i = Some (extension, description) →
     mounted (node s') !! (first + i) =
       Some (ExtensionHook extension description)) ∧
  (∀ h, (h < first ∨ first + length pairs ≤ h)%nat →
     mounted (node s') !! h = mounted (node s) !! h).
Proof.
  cbv zeta. rewrite register_unfold. cbn [fst snd].
  destruct (mount_all_spec (registrations (options (this s)))
              (set_log (λ entries,
                 entries ++ [(Debug, "registering require() hooks for assets")]) s))
    as (Hh & Hn & Hm & Ho).
  split; [done |]. split; [exact Hh |]. split; [exact Hn |]. split; [|exact Ho].
  intros i extension description Hi. apply (Hm i _ Hi).
Qed.

(** X13: when no handle from the next one on is taken, [register()]
    followed by [undo()] leaves the mounts exactly as [undo()] alone
    would: with nothing recorded before, registering and undoing gives
    back the mounts there were. *)
Theorem register_then_undo_restores_mounts s :
  fresh_handles s →
  mounted (node (snd (undo (snd (register s))))) = mounted (node (snd (undo s))) ∧
  (hooks (this s) = [] → alias_hook (this s) = None →
   mounted (node (snd (undo (snd (register s))))) = mounted (node s)).
Proof.
  intros Hfresh.
  assert (Hmain : mounted (node (snd (undo (snd (register s))))) =
                  mounted (node (snd (undo s)))).
  { rewrite !undo_unfold, register_unfold. cbn [snd set_mounted node mounted].
    apply map_eq. intros h. rewrite !unmounted_lookup.
    set (logged := set_log _ s).
    destruct (mount_all_spec (registrations (options (this s))) logged)
      as (Hh & _ & _ & Ho).
    destruct (mount_all_frame (registrations (options (this s))) logged)
      as (_ & _ & _ & Ha & _).
    rewrite Hh, Ha. subst logged. cbn [set_log this hooks alias_hook node] in *.
    set (n := length (registrations (options (this s)))) in *.
    destruct (decide (h ∈ hooks (this s) ∨ alias_hook (this s) = Some h))
      as [Hrec | Hnot].
    - rewrite !bool_decide_eq_true_2; [done | done |].
      destruct Hrec as [? | ?]; [left; apply elem_of_app; by left | by right].
    - rewrite (bool_decide_eq_false_2 _ Hnot).
      destruct (decide (h ∈ seq (next_handle (node s)) n)) as [Hnew | Hold].
      + rewrite bool_decide_eq_true_2 by (left; apply elem_of_app; by right).
        symmetry. apply Hfresh. apply elem_of_seq in Hnew. lia.
      + rewrite bool_decide_eq_false_2.
        * apply Ho. rewrite elem_of_seq in Hold. lia.
        * intros [[? | ?]%elem_of_app | ?]; [apply Hnot; by left | done
                                            | apply Hnot; by right]. }
  split; [exact Hmain |].
  intros Hnone Halias. rewrite Hmain, undo_unfold. cbn [snd set_mounted node mounted].
  unfold unmounted. by rewrite Hnone, Halias.
Qed.

(** *** Starting up *)


Lemma server_unfold root given s :
  server path_resolve root given s =
    check (continuation given)
      (mount_all (registrations (options (this s)))
         (set_log (λ entries,
            entries ++ [(Debug, "registering require() hooks for assets")])
            (set_webpack_assets_path
               (Some (path_resolve root
                        (Options.webpack_assets_file_path (options (this s)))))
               (set_options (with_project_path (Some root)) s)))).
Proof.
  unfold server. unfold bind at 1. unfold modify at 1.
  unfold bind at 1. unfold gets at 1.
  unfold bind at 1. unfold modify at 1.
  unfold bind at 1. rewrite register_unfold.
  by destruct given.
Qed.

(** X14: [server(project_path, callback)] sets the project path and the
    manifest path resolved from it, registers the hooks, and checks for
    the manifest once, in either mode: with the manifest on disk the
    continuation is called before [server] returns; otherwise nothing is
    called and one check is scheduled 300 ms later. *)
Theorem server_calls_back_iff_manifest_on_disk s root given :
  let manifest :=
    path_resolve root (Options.webpack_assets_file_path (options (this s))) in
  let s' := snd (server path_resolve root given s) in
  fst (server path_resolve root given s) = Return tt ∧
  Options.project_path (options (this s')) = Some root ∧
  webpack_assets_path (this s') = Some manifest ∧
  hooks (this s') =
    hooks (this s) ++
    seq (next_handle (node s)) (length (registrations (options (this s)))) ∧
  if bool_decide (is_Some (files (node s) !! manifest))
  then called (node s') = called (node s) ++ [(continuation given, now (node s))] ∧
       timers (node s') = timers (node s)
  else called (node s') = called (node s) ∧
       timers (node s') =
         timers (node s) ++ [((now (node s) + 300)%N, Check (continuation given))].
Proof.
  cbv zeta. rewrite server_unfold, check_unfold.
  set (s0 := set_log _ _).
  set (pairs := registrations (options (this s))).
  destruct (mount_all_spec pairs s0) as (Hh & _).
  destruct (mount_all_frame pairs s0) as (_ & Ho & Hp & _ & Hf & _ & Hn & Ht & Hc).
  unfold manifest_on_disk. rewrite Hp, Hf.
  subst s0. cbn [set_log set_webpack_assets_path set_options this node
                 webpack_assets_path options hooks files now timers called] in *.
  destruct (bool_decide _); cbn [fst snd set_called set_timers set_log this node
    options hooks webpack_assets_path called timers];
    rewrite ?Ho, ?Hp, ?Hh, ?Hn, ?Ht, ?Hc; done.
Qed.

(** X15: a new instance has recorded no hook and no asset and knows no
    manifest path; the aliasing hook is mounted exactly when aliases
    were given, under the next handle.  If that handle was free,
    [undo()] on the new instance gives back the mounts of the process. *)
Theorem constructor_initial_state options process :
  let s := constructor options process in
  hooks (this s) = [] ∧
  cached s = [] ∧
  webpack_assets_path (this s) = None ∧
  alias_hook (this s) =
    (if exists_ (Options.alias options)
     then Some (next_handle process) else None) ∧
  mounted (node s) =
    (if exists_ (Options.alias options)
     then <[next_handle process := GlobalHook "aliasing"]> (mounted process)
     else mounted process) ∧
  (mounted process !! next_handle process = None →
   mounted (node (snd (undo s))) = mounted process).
Proof.
  cbv zeta. rewrite undo_unfold. unfold_constructor.
  unfold enable_aliasing, mount_hook, unmounted. js_unfold.
  destruct (exists_ (Options.alias options)); simpl.
  - do 5 (split; [done |]). intros Hfree.
    rewrite delete_insert_eq. by apply delete_id.
  - done.
Qed.

Lemma hooks_kept_by_frame {A} (m : M A) s :
  preserves (λ s, hooks (this s)) m →
  hooks (this s) `prefix_of` hooks (this (snd (m s))).
Proof. intros Hm. by rewrite (Hm s). Qed.

Lemma require_keeps_hooks path description :
  preserves (λ s, hooks (this s)) (require path description).
Proof.
  unfold_require. unfold asset_source, assets. frame.
Qed.


Lemma check_keeps_hooks k : preserves (λ s, hooks (this s)) (check k).
Proof. unfold check. frame. Qed.

Lemma server_hooks root given s :
  hooks (this (snd (server path_resolve root given s))) =
    hooks (this s) ++
    seq (next_handle (node s)) (length (registrations (options (this s)))).
Proof.
  rewrite server_unfold.
  match goal with
  | |- context [check ?k ?st] => rewrite (check_keeps_hooks k st)
  end.
  match goal with
  | |- context [mount_all ?pairs ?st] =>
      destruct (mount_all_spec pairs st) as (-> & _)
  end.
  done.
Qed.

Lemma step_keeps_hooks e s :
  hooks (this s) `prefix_of` hooks (this (step e s)).
Proof.
  destruct e as [c | handle path | late disk]; unfold_step.
  - destruct c; cbn [run_call].
    + apply hooks_kept_by_frame. unfold development. frame.
    + apply hooks_kept_by_frame. unfold assets. frame.
    + apply hooks_kept_by_frame. unfold refresh. frame.
    + apply hooks_kept_by_frame. unfold enable_aliasing. frame.
    + rewrite server_hooks. by eexists.
    + rewrite register_unfold. cbn [snd].
      match goal with
      | |- context [mount_all ?pairs ?st] =>
          destruct (mount_all_spec pairs st) as (-> & _)
      end.
      by eexists.
    + rewrite register_extension_unfold. by eexists.
    + apply hooks_kept_by_frame, require_keeps_hooks.
    + apply hooks_kept_by_frame. unfold asset_source, assets. frame.
    + apply hooks_kept_by_frame. unfold undo. frame.
    + apply hooks_kept_by_frame. unfold wait_for_assets. apply check_keeps_hooks.
  - destruct (mounted (node s) !! handle) as [[extension description | id]|];
      [|done|done].
    rewrite hook_closure_unfold. destruct (bool_decide _); [done |].
    apply hooks_kept_by_frame, require_keeps_hooks.
  - apply hooks_kept_by_frame. unfold tick, run_task. frame.
Qed.

(** X16: [this.hooks] only grows: no method call, hook run or timer
    takes a handle out of it, not even [undo()], so that every hook ever
    registered is unmounted again by each later [undo()]. *)
Theorem hooks_are_never_forgotten events s :
  hooks (this s) `prefix_of` hooks (this (run events s)) ∧
  ∀ h, h ∈ hooks (this s) →
       mounted (node (snd (undo (run events s)))) !! h = None.
Proof.
  assert (Hrun : hooks (this s) `prefix_of` hooks (this (run events s))).
  { revert s. induction events as [|e events IH]; intros s; [done |].
    change (run (e :: events) s) with (run events (step e s)).
    etrans; [apply step_keeps_hooks | apply IH]. }
  split; [exact Hrun |].
  intros h Hh. rewrite undo_unfold. cbn [snd set_mounted node mounted].
  rewrite unmounted_lookup. rewrite bool_decide_eq_true_2; [done |].
  left. destruct Hrun as [more ->]. apply elem_of_app. by left.
Qed.

(** *** Waiting *)

Lemma tick_negative_log k s0 w late disk :
  polling k s0 w →
  on_disk (webpack_assets_path (this s0)) disk = false →
  log (this (step (Tick late disk) w)) = log (this w) ++ waiting_lines s0.
Proof.
  intros (Ht & Hc & Hp) Hdisk. rewrite tick_unfold, Ht, check_unfold.
  unfold manifest_on_disk. simpl. rewrite Hp.
  fold (on_disk (webpack_assets_path (this s0)) disk). by rewrite Hdisk.
Qed.

Lemma ticks_negative_log k s0 w negatives :
  polling k s0 w →
  Forall (λ t, on_disk (webpack_assets_path (this s0)) (snd t) = false) negatives →
  log (this (run (ticks negatives) w)) =
    log (this w) ++ concat (replicate (length negatives) (waiting_lines s0)).
Proof.
  intros Hw Hneg. revert w Hw.
  induction Hneg as [|[late disk] negatives Hdisk _ IH]; intros w Hw.
  - cbn [length replicate concat]. by rewrite app_nil_r.
  - change (run (ticks ((late, disk) :: negatives)) w)
      with (run (ticks negatives) (step (Tick late disk) w)).
    destruct (tick_negative normalize_asset_path webpack_path path_resolve
                to_javascript_module_source k s0 w late disk Hw Hdisk)
      as [Hw' _].
    rewrite (IH _ Hw'), (tick_negative_log k s0 w late disk Hw Hdisk).
    cbn [length replicate concat]. by rewrite <- app_assoc.
Qed.

(** X17: as long as the manifest is not found, every check, the one
    inside [wait_for_assets] and each later one, logs the same two
    lines: the debug line with the manifest path and the waiting
    notice. *)
Theorem waiting_is_logged s k negatives :
  timers (node s) = [] →
  manifest_on_disk s = false →
  Forall (λ t, on_disk (webpack_assets_path (this s)) (snd t) = false) negatives →
  log (this (run (ticks negatives) (snd (wait_for_assets k s)))) =
    log (this s) ++
    concat (replicate (S (length negatives)) (waiting_lines s)).
Proof.
  intros Ht Hno Hneg.
  assert (Hstart : polling k s (snd (wait_for_assets k s)) ∧
                   log (this (snd (wait_for_assets k s))) =
                     log (this s) ++ waiting_lines s).
  { unfold wait_for_assets. rewrite check_unfold, Hno. unfold polling. simpl.
    by rewrite Ht. }
  destruct Hstart as [Hstart Hlog].
  rewrite (ticks_negative_log k s _ negatives Hstart Hneg), Hlog.
  cbn [replicate concat]. by rewrite <- app_assoc.
Qed.

End Extras.

(** ** The theorems at the concrete project *)

(** C1 as stated fails: an include list that is there and empty counts
    as an absent one in the stated policy, but [includes] answers false
    for it and [require] declines the load. *)
Lemma empty_include_list_declines :
  ¬ (intercepts (require sample_normalize sample_webpack_path sample_source
                   "/app/assets/logo.png" nothing_included built) ↔
     stated_policy (sample_normalize "/app/assets/logo.png" "/app") nothing_included).
Proof.
  intros [_ Hstated].
  assert (Hpolicy : stated_policy (sample_normalize "/app/assets/logo.png" "/app")
                      nothing_included).
  { split; [right; left; reflexivity |]. intros (ms & m & Hms & _). discriminate Hms. }
  apply Hstated in Hpolicy. apply Hpolicy. vm_compute. reflexivity.
Qed.

(** C6 as stated fails: when the manifest file is not named as a JSON
    file, the hook registered for the manifest's own extension does not
    decline the path of the manifest file. *)
Lemma manifest_hook_of_another_extension_intercepts :
  webpack_assets_path (this oddly_named) = Some "/app/assets.manifest" ∧
  extension_of "/app/assets.manifest" = Some "manifest" ∧
  mounted (node oddly_named) !! 0 = Some (ExtensionHook "manifest" manifests) ∧
  ¬ (fst (hook_closure sample_normalize sample_webpack_path sample_source
            "manifest" manifests "/app/assets.manifest" oddly_named) =
       Return None).
Proof.
  split; [reflexivity |]. split; [reflexivity |]. split; [reflexivity |].
  vm_compute. discriminate.
Qed.

Lemma require_intercepts_iff_policy_witness :
  Options.project_path (options (this built)) = Some "/app" ∧
  "/app" ≠ "" ∧
  (intercepts (require sample_normalize sample_webpack_path sample_source
                 "/app/assets/logo.png" images built) ↔
   policy (sample_normalize "/app/assets/logo.png" "/app") images).
Proof.
  split; [reflexivity |]. split; [discriminate |].
  apply (require_intercepts_iff_policy sample_normalize sample_webpack_path
           sample_source built "/app/assets/logo.png" images "/app");
    [reflexivity | discriminate].
Defined.

Lemma refresh_production_throws_witness :
  truthy (Options.development (options (this located))) = false ∧
  ∃ e, refresh located = (Throw e, located).
Proof.
  split; [reflexivity |].
  apply (refresh_production_throws located). reflexivity.
Defined.

Lemma refresh_development_flushes_witness :
  truthy (Options.development (options (this loaded))) = true ∧
  ∃ s',
    refresh loaded = (Return tt, s') ∧
    require_cache (node s') =
      foldl (λ c p, delete p c)
        (delete (show_path (webpack_assets_path (this loaded)))
           (require_cache (node loaded)))
        (cached_assets (this loaded)) ∧
    cached_assets (this s') = [] ∧
    (∀ p, p = show_path (webpack_assets_path (this loaded)) ∨
          p ∈ cached_assets (this loaded) →
          require_cache (node s') !! p = None) ∧
    (∀ p, p ≠ show_path (webpack_assets_path (this loaded)) →
          p ∉ cached_assets (this loaded) →
          require_cache (node s') !! p = require_cache (node loaded) !! p).
Proof.
  split; [reflexivity |].
  apply (refresh_development_flushes loaded). reflexivity.
Defined.

Lemma wait_for_assets_calls_back_once_witness :
  timers (node developing) = [] ∧
  manifest_on_disk developing = false ∧
  Forall (λ t, on_disk (webpack_assets_path (this developing)) (snd t) = false)
    [(0%N, empty_disk); (5%N, empty_disk)] ∧
  on_disk (webpack_assets_path (this developing)) built_disk = true ∧
  let waiting :=
    sample_run (ticks [(0%N, empty_disk); (5%N, empty_disk)])
      (snd (wait_for_assets (UserCallback 7) developing)) in
  let found := sample_run [Tick 2%N built_disk] waiting in
  let final := sample_run (ticks [(1%N, built_disk)]) found in
  called (node waiting) = called (node developing) ∧
  timers (node waiting) = [((now (node waiting) + 300)%N, Check (UserCallback 7))] ∧
  now (node waiting) =
    (now (node developing) + elapsed [(0%N, empty_disk); (5%N, empty_disk)])%N ∧
  called (node found) =
    called (node developing) ++ [(UserCallback 7, now (node found))] ∧
  now (node found) = (now (node waiting) + 300 + 2)%N ∧
  timers (node found) = [] ∧
  called (node final) = called (node found) ∧
  timers (node final) = [].
Proof.
  assert (Hneg : Forall (λ t, on_disk (webpack_assets_path (this developing))
                                (snd t) = false)
                   [(0%N, empty_disk); (5%N, empty_disk)]).
  { repeat constructor. }
  split; [reflexivity |]. split; [reflexivity |]. split; [exact Hneg |].
  split; [reflexivity |].
  apply (proj2 (wait_for_assets_calls_back_once sample_normalize
                  sample_webpack_path sample_resolve sample_source)
           developing (UserCallback 7) [(0%N, empty_disk); (5%N, empty_disk)]
           2%N built_disk [(1%N, built_disk)]);
    [reflexivity | reflexivity | exact Hneg | reflexivity].
Defined.

Lemma missing_asset_is_claimed_witness :
  Options.project_path (options (this developing)) = Some "/app" ∧
  "/app" ≠ "" ∧
  policy (sample_normalize "/app/assets/logo.png" "/app") images ∧
  sample_webpack_path (sample_normalize "/app/assets/logo.png" "/app") ≠ "" ∧
  fst (assets developing) = Return (JsonExports default_webpack_assets) ∧
  property_assets (JsonExports default_webpack_assets) = Some ∅ ∧
  (∅ : gmap string value) !!
    sample_webpack_path (sample_normalize "/app/assets/logo.png" "/app") = None ∧
  ∃ s',
    require sample_normalize sample_webpack_path sample_source
      "/app/assets/logo.png" images developing =
      (Return (Some (sample_source None)), s') ∧
    last (log (this s')) =
      Some (Error, "asset not found: " +:+
                   sample_webpack_path
                     (sample_normalize "/app/assets/logo.png" "/app")).
Proof.
  assert (Hpolicy : policy (sample_normalize "/app/assets/logo.png" "/app") images).
  { apply skip_condition_spec. reflexivity. }
  split; [reflexivity |]. split; [discriminate |]. split; [exact Hpolicy |].
  split; [discriminate |]. split; [reflexivity |]. split; [reflexivity |].
  split; [reflexivity |].
  apply (missing_asset_is_claimed sample_normalize sample_webpack_path
           sample_source developing "/app/assets/logo.png" images "/app"
           (JsonExports default_webpack_assets) ∅);
    [reflexivity | discriminate | exact Hpolicy | discriminate
    | reflexivity | reflexivity | reflexivity].
Defined.


Lemma assets_missing_manifest_stub_witness :
  webpack_assets_path (this built) = Some "/app/webpack-assets.json" ∧
  files (node built) !! "/app/webpack-assets.json" = Some sample_manifest ∧
  require_cache (node built) !! "/app/webpack-assets.json" = None ∧
  fst (assets built) = Return (JsonExports sample_manifest) ∧
  fst (assets developing) = Return (JsonExports default_webpack_assets).
Proof.
  split; [reflexivity |]. split; [reflexivity |]. split; [reflexivity |]. split.
  - apply (proj2 (assets_missing_manifest_stub built)
             "/app/webpack-assets.json" sample_manifest);
      reflexivity.
  - rewrite (proj1 (assets_missing_manifest_stub developing)). reflexivity.
Defined.

Lemma undo_unmounts_and_is_idempotent_witness :
  let registered :=
    sample_run [Call CallEnableAliasing; Call CallRegister] constructed in
  hooks (this registered) = [1] ∧
  alias_hook (this registered) = Some 0 ∧
  ∃ s',
    undo registered = (Return tt, s') ∧
    mounted (node s') !! 1 = None ∧
    mounted (node s') !! 0 = None ∧
    undo s' = (Return tt, s').
Proof.
  cbv zeta. split; [reflexivity |]. split; [reflexivity |].
  destruct (undo_unmounts_and_is_idempotent
              (sample_run [Call CallEnableAliasing; Call CallRegister] constructed))
    as (s' & Hundo & _ & Hgone & _ & Hagain & _).
  exists s'. split; [exact Hundo |]. split; [|split; [|exact Hagain]].
  - apply Hgone. left. vm_compute. left.
  - apply Hgone. right. reflexivity.
Defined.

Lemma require_tracks_before_lookup_witness :
  truthy (Options.development (options (this developing))) = true ∧
  Options.project_path (options (this developing)) = Some "/app" ∧
  "/app" ≠ "" ∧
  policy (sample_normalize "/app/assets/logo.png" "/app") images ∧
  cached_assets
    (this (snd (require sample_normalize sample_webpack_path sample_source
                  "/app/assets/logo.png" images developing))) =
    cached_assets (this developing) ++ ["/app/assets/logo.png"].
Proof.
  assert (Hpolicy : policy (sample_normalize "/app/assets/logo.png" "/app") images).
  { apply skip_condition_spec. reflexivity. }
  split; [reflexivity |]. split; [reflexivity |]. split; [discriminate |].
  split; [exact Hpolicy |].
  apply (require_tracks_before_lookup sample_normalize sample_webpack_path
           sample_source developing "/app/assets/logo.png" images "/app");
    [reflexivity | reflexivity | discriminate | exact Hpolicy].
Defined.

(** ** The further properties at the concrete project *)

Lemma require_without_project_path_throws_witness :
  truthy_string (Options.project_path (options (this constructed))) = false ∧
  ∃ e,
    require sample_normalize sample_webpack_path sample_source
      "/app/assets/logo.png" images constructed =
      (Throw e,
       set_log (λ entries,
         entries ++ [(Debug, "require() called for " +:+ "/app/assets/logo.png")])
         constructed) ∧
    cached_assets
      (this (snd (require sample_normalize sample_webpack_path sample_source
                    "/app/assets/logo.png" images constructed))) =
      cached_assets (this constructed) ∧
    node (snd (require sample_normalize sample_webpack_path sample_source
                 "/app/assets/logo.png" images constructed)) = node constructed.
Proof.
  split; [reflexivity |].
  apply (require_without_project_path_throws sample_normalize sample_webpack_path
           sample_source constructed "/app/assets/logo.png" images).
  reflexivity.
Defined.

Lemma found_asset_is_served_witness :
  Options.project_path (options (this built)) = Some "/app" ∧
  "/app" ≠ "" ∧
  policy (sample_normalize "/app/assets/logo.png" "/app") images ∧
  sample_webpack_path (sample_normalize "/app/assets/logo.png" "/app") ≠ "" ∧
  fst (assets built) = Return (JsonExports sample_manifest) ∧
  property_assets (JsonExports sample_manifest) =
    Some (Manifest.assets sample_manifest) ∧
  Manifest.assets sample_manifest !!
    sample_webpack_path (sample_normalize "/app/assets/logo.png" "/app") =
    Some (VString "/build/logo.abc123.png") ∧
  ∃ s',
    require sample_normalize sample_webpack_path sample_source
      "/app/assets/logo.png" images built =
      (Return (Some (sample_source (Some (VString "/build/logo.abc123.png")))), s') ∧
    cached_assets (this s') =
      (if truthy (Options.development (options (this built)))
       then cached_assets (this built) ++ ["/app/assets/logo.png"]
       else cached_assets (this built)) ∧
    log (this s') =
      log (this built) ++
      [(Debug, "require() called for " +:+ "/app/assets/logo.png");
       (Debug, " requiring " +:+
               sample_webpack_path (sample_normalize "/app/assets/logo.png" "/app"))].
Proof.
  assert (Hpolicy : policy (sample_normalize "/app/assets/logo.png" "/app") images).
  { apply skip_condition_spec. reflexivity. }
  split; [reflexivity |]. split; [discriminate |]. split; [exact Hpolicy |].
  split; [discriminate |]. split; [reflexivity |]. split; [reflexivity |].
  split; [reflexivity |].
  apply (found_asset_is_served sample_normalize sample_webpack_path sample_source
           built "/app/assets/logo.png" images "/app" (JsonExports sample_manifest)
           (Manifest.assets sample_manifest) (VString "/build/logo.abc123.png"));
    [reflexivity | discriminate | exact Hpolicy | discriminate
    | reflexivity | reflexivity | reflexivity].
Defined.

Lemma declined_load_leaves_no_trace_witness :
  Options.project_path (options (this developing)) = Some "/app" ∧
  "/app" ≠ "" ∧
  ¬ policy (sample_normalize "/app/assets/skip.png" "/app") images ∧
  require sample_normalize sample_webpack_path sample_source
    "/app/assets/skip.png" images developing =
    (Return None,
     set_log (λ entries,
       entries ++ [(Debug, "require() called for " +:+ "/app/assets/skip.png");
                   (Debug, " skipping require call for " +:+
                           sample_normalize "/app/assets/skip.png" "/app")])
       developing).
Proof.
  assert (Hpolicy : ¬ policy (sample_normalize "/app/assets/skip.png" "/app") images).
  { intros H. apply skip_condition_spec in H. discriminate H. }
  split; [reflexivity |]. split; [discriminate |]. split; [exact Hpolicy |].
  apply (declined_load_leaves_no_trace sample_normalize sample_webpack_path
           sample_source developing "/app/assets/skip.png" images "/app");
    [reflexivity | discriminate | exact Hpolicy].
Defined.

Lemma development_load_without_manifest_never_throws_witness :
  truthy (Options.development (options (this developing))) = true ∧
  Options.project_path (options (this developing)) = Some "/app" ∧
  "/app" ≠ "" ∧
  manifest_on_disk developing = false ∧
  ∃ s',
    (require sample_normalize sample_webpack_path sample_source
       "/app/assets/logo.png" images developing = (Return None, s') ∨
     require sample_normalize sample_webpack_path sample_source
       "/app/assets/logo.png" images developing =
       (Return (Some (sample_source None)), s')) ∧
    node s' = node developing.
Proof.
  split; [reflexivity |]. split; [reflexivity |]. split; [discriminate |].
  split; [reflexivity |].
  apply (development_load_without_manifest_never_throws sample_normalize
           sample_webpack_path sample_source developing "/app/assets/logo.png"
           images "/app");
    [reflexivity | reflexivity | discriminate | reflexivity].
Defined.

Lemma production_load_without_manifest_throws_witness :
  truthy (Options.development (options (this located))) = false ∧
  Options.project_path (options (this located)) = Some "/app" ∧
  "/app" ≠ "" ∧
  policy (sample_normalize "/app/assets/logo.png" "/app") images ∧
  sample_webpack_path (sample_normalize "/app/assets/logo.png" "/app") ≠ "" ∧
  webpack_assets_path (this located) = Some "/app/webpack-assets.json" ∧
  files (node located) !! "/app/webpack-assets.json" = None ∧
  require_cache (node located) !! "/app/webpack-assets.json" = None ∧
  fst (require sample_normalize sample_webpack_path sample_source
         "/app/assets/logo.png" images located) =
    Throw (ModuleNotFound "/app/webpack-assets.json") ∧
  cached_assets
    (this (snd (require sample_normalize sample_webpack_path sample_source
                  "/app/assets/logo.png" images located))) =
    cached_assets (this located).
Proof.
  assert (Hpolicy : policy (sample_normalize "/app/assets/logo.png" "/app") images).
  { apply skip_condition_spec. reflexivity. }
  split; [reflexivity |]. split; [reflexivity |]. split; [discriminate |].
  split; [exact Hpolicy |]. split; [discriminate |]. split; [reflexivity |].
  split; [reflexivity |]. split; [reflexivity |].
  apply (production_load_without_manifest_throws sample_normalize
           sample_webpack_path sample_source located "/app/assets/logo.png"
           images "/app" "/app/webpack-assets.json");
    [reflexivity | reflexivity | discriminate | exact Hpolicy | discriminate
    | reflexivity | reflexivity | reflexivity].
Defined.

Lemma refresh_then_assets_reads_disk_witness :
  let s := set_files built_disk loaded in
  truthy (Options.development (options (this s))) = true ∧
  webpack_assets_path (this s) = Some "/app/webpack-assets.json" ∧
  files (node s) !! "/app/webpack-assets.json" = Some sample_manifest ∧
  fst (assets (snd (refresh s))) = Return (JsonExports sample_manifest) ∧
  require_cache (node (snd (assets (snd (refresh s))))) !!
    "/app/webpack-assets.json" = Some (JsonExports sample_manifest).
Proof.
  cbv zeta. split; [reflexivity |]. split; [reflexivity |]. split; [reflexivity |].
  apply (refresh_then_assets_reads_disk (set_files built_disk loaded)
           "/app/webpack-assets.json" sample_manifest);
    reflexivity.
Defined.

Lemma assets_served_from_cache_witness :
  webpack_assets_path (this built) = Some "/app/webpack-assets.json" ∧
  truthy (Options.development (options (this built))) &&
    negb (manifest_on_disk built) = false ∧
  fst (assets built) = Return (JsonExports sample_manifest) ∧
  (is_Some (empty_disk !! "/app/webpack-assets.json") ∨
   truthy (Options.development (options (this built))) = false) ∧
  fst (assets (set_files empty_disk (snd (assets built)))) =
    Return (JsonExports sample_manifest).
Proof.
  split; [reflexivity |]. split; [reflexivity |]. split; [reflexivity |].
  split; [right; reflexivity |].
  apply (assets_served_from_cache built "/app/webpack-assets.json"
           (JsonExports sample_manifest) empty_disk);
    [reflexivity | reflexivity | reflexivity | right; reflexivity].
Defined.

Lemma refresh_twice_witness :
  truthy (Options.development (options (this loaded))) = true ∧
  fst (refresh (snd (refresh loaded))) = Return tt ∧
  require_cache (node (snd (refresh (snd (refresh loaded))))) =
    require_cache (node (snd (refresh loaded))) ∧
  cached_assets (this (snd (refresh (snd (refresh loaded))))) = [] ∧
  cached_assets (this (snd (refresh loaded))) = [].
Proof.
  split; [reflexivity |].
  apply (refresh_twice loaded). reflexivity.
Defined.

Lemma register_then_undo_restores_mounts_witness :
  fresh_handles constructed ∧
  mounted (node (snd (undo (snd (register constructed))))) =
    mounted (node (snd (undo constructed))) ∧
  (hooks (this constructed) = [] → alias_hook (this constructed) = None →
   mounted (node (snd (undo (snd (register constructed))))) =
     mounted (node constructed)).
Proof.
  assert (Hfresh : fresh_handles constructed).
  { intros h _.
    change (mounted (node constructed)) with (∅ : gmap nat mount).
    apply lookup_empty. }
  split; [exact Hfresh |].
  apply (register_then_undo_restores_mounts constructed Hfresh).
Defined.

Lemma waiting_is_logged_witness :
  timers (node developing) = [] ∧
  manifest_on_disk developing = false ∧
  Forall (λ t, on_disk (webpack_assets_path (this developing)) (snd t) = false)
    [(0%N, empty_disk); (5%N, empty_disk)] ∧
  log (this (sample_run (ticks [(0%N, empty_disk); (5%N, empty_disk)])
               (snd (wait_for_assets (UserCallback 7) developing)))) =
    log (this developing) ++
    concat (replicate 3 (waiting_lines developing)).
Proof.
  assert (Hneg : Forall (λ t, on_disk (webpack_assets_path (this developing))
                                (snd t) = false)
                   [(0%N, empty_disk); (5%N, empty_disk)]).
  { repeat constructor. }
  split; [reflexivity |]. split; [reflexivity |]. split; [exact Hneg |].
  apply (waiting_is_logged sample_normalize sample_webpack_path sample_resolve
           sample_source developing (UserCallback 7)
           [(0%N, empty_disk); (5%N, empty_disk)]);
    [reflexivity | reflexivity | exact Hneg].
Defined.
